(** * notify-hub: the polling cycle of [monitor_api.py]

    A shallow embedding of the change-detection pipeline of
    [src/monitor_api.py] -- [safe_text], [sha1], [load_state], [save_state],
    the entry normalisation of [fetch_rss], [importance_level], [notify_all]
    and [run_once] -- and the properties of the specification stated over it.

    Conventions.
    - A Python [str] is a [string] holding its UTF-8 encoding, one [ascii]
      per byte.  UTF-8 is self-synchronising, so [x in y] on well-formed
      text is the byte-level substring test, and slicing counts lead bytes.
    - Code running under [try] is a computation in the monad [M]: it threads
      a [World] (the [.state] directory, the clock, the event trace) and
      returns [Ok] or [Raise].
    - What the process cannot decide by itself -- the answers of the
      network, the wall clock, the iteration order of a [set], the Unicode
      tables behind [str.lower] -- is read from an [Env]. *)

From Stdlib Require Import String Ascii List ZArith Lia Bool.
From stdpp Require Import gmap strings list fin_maps.

Open Scope string_scope.
Open Scope list_scope.

(** ** Python strings *)

Module Py.

(** [x in y] for two [str]. *)
Fixpoint starts_with (p s : string) : bool :=
  match p, s with
  | EmptyString, _ => true
  | String _ _, EmptyString => false
  | String a p', String b s' => if Ascii.eqb a b then starts_with p' s' else false
  end.

Fixpoint contains (needle hay : string) : bool :=
  if starts_with needle hay then true
  else match hay with
       | EmptyString => false
       | String _ hay' => contains needle hay'
       end.

(** [any(k in text for k in ks)] *)
Definition any_in (ks : list string) (text : string) : bool :=
  existsb (fun k => contains k text) ks.

(** [s.replace(a, b)] for one-byte [a] and [b]. *)
Fixpoint replace_char (a b : ascii) (s : string) : string :=
  match s with
  | EmptyString => EmptyString
  | String c s' => String (if Ascii.eqb c a then b else c) (replace_char a b s')
  end.

Definition CR : ascii := ascii_of_nat 13.
Definition LF : ascii := ascii_of_nat 10.
Definition SP : ascii := ascii_of_nat 32.

Fixpoint rev_string_onto (s acc : string) : string :=
  match s with
  | EmptyString => acc
  | String c s' => rev_string_onto s' (String c acc)
  end.

Definition rev_string (s : string) : string := rev_string_onto s EmptyString.

Definition bytes (l : list nat) : string :=
  fold_right (fun n s => String (ascii_of_nat n) s) EmptyString l.

(** The characters for which [str.isspace] holds, UTF-8 encoded:
    U+0009..U+000D, U+001C..U+001F, U+0020, U+0085, U+00A0, U+1680,
    U+2000..U+200A, U+2028, U+2029, U+202F, U+205F, U+3000. *)
Definition whitespace : list string :=
  map bytes
    ([ [9]; [10]; [11]; [12]; [13]; [28]; [29]; [30]; [31]; [32];
       [194; 133]; [194; 160]; [225; 154; 128] ]
     ++ map (fun k => [226; 128; k]) [128; 129; 130; 131; 132; 133; 134; 135; 136; 137; 138]
     ++ [ [226; 128; 168]; [226; 128; 169]; [226; 128; 175]; [226; 129; 159];
          [227; 128; 128] ])%list.

Fixpoint drop_string (n : nat) (s : string) : string :=
  match n, s with
  | O, _ => s
  | S _, EmptyString => EmptyString
  | S n', String _ s' => drop_string n' s'
  end.

(** One leading whitespace character removed, if there is one. *)
Fixpoint lstrip1 (ws : list string) (s : string) : option string :=
  match ws with
  | [] => None
  | w :: ws' => if starts_with w s then Some (drop_string (String.length w) s)
                else lstrip1 ws' s
  end.

Fixpoint lstrip_fuel (ws : list string) (fuel : nat) (s : string) : string :=
  match fuel with
  | O => s
  | S fuel' => match lstrip1 ws s with
               | Some s' => lstrip_fuel ws fuel' s'
               | None => s
               end
  end.

(** Every removal shortens the string, so its length is fuel enough. *)
Definition lstrip_with (ws : list string) (s : string) : string :=
  lstrip_fuel ws (String.length s) s.

Definition lstrip (s : string) : string := lstrip_with whitespace s.

Definition rstrip (s : string) : string :=
  rev_string (lstrip_with (map rev_string whitespace) (rev_string s)).

(** [s.strip()] *)
Definition strip (s : string) : string := rstrip (lstrip s).

(** [s[:n]] for [n >= 0]: the first [n] code points.  A byte [10xxxxxx]
    continues the character of the lead byte before it. *)
Definition is_continuation (c : ascii) : bool :=
  let n := nat_of_ascii c in (128 <=? n)%nat && (n <? 192)%nat.

Fixpoint take_chars (n : nat) (s : string) : string :=
  match s with
  | EmptyString => EmptyString
  | String c s' =>
      if is_continuation c then String c (take_chars n s')
      else match n with
           | O => EmptyString
           | S n' => String c (take_chars n' s')
           end
  end.

(** [l[:n]] for a list and any integer [n]: a negative bound counts from
    the end. *)
Definition slice_to {A} (n : Z) (l : list A) : list A :=
  if (0 <=? n)%Z then firstn (Z.to_nat n) l
  else firstn (length l - Z.to_nat (- n)) l.

(** [str(n)] for a natural number. *)
Definition digit (n : nat) : ascii := ascii_of_nat (48 + n).

Fixpoint str_of_nat_fuel (fuel n : nat) (acc : string) : string :=
  match fuel with
  | O => acc
  | S fuel' =>
      let acc' := String (digit (n mod 10)) acc in
      if (n <? 10)%nat then acc' else str_of_nat_fuel fuel' (n / 10) acc'
  end.

Definition str_of_nat (n : nat) : string := str_of_nat_fuel (S n) n EmptyString.

(** [x or y] on strings: the empty string is falsy. *)
Definition or_else (x y : string) : string :=
  match x with
  | EmptyString => y
  | _ => x
  end.

Definition truthy (s : string) : bool :=
  match s with
  | EmptyString => false
  | _ => true
  end.

(** ASCII-only lowering: what [str.lower] does on ASCII text. *)
Definition lower_ascii_char (c : ascii) : ascii :=
  let n := nat_of_ascii c in
  if (65 <=? n)%nat && (n <=? 90)%nat then ascii_of_nat (n + 32) else c.

Fixpoint lower_ascii (s : string) : string :=
  match s with
  | EmptyString => EmptyString
  | String c s' => String (lower_ascii_char c) (lower_ascii s')
  end.

End Py.

(** ** [hashlib.sha1(...).hexdigest()]

    SHA-1 (FIPS 180-4) on the bytes of the string; 32-bit words are [Z]
    reduced modulo [2^32]. *)

Module Sha1.

Open Scope Z_scope.

Definition w32 (x : Z) : Z := Z.land x 4294967295.

Definition rotl (n : Z) (x : Z) : Z :=
  w32 (Z.lor (Z.shiftl x n) (Z.shiftr x (32 - n))).

Definition byte_list (s : string) : list Z :=
  map (fun c => Z.of_nat (nat_of_ascii c)) (list_ascii_of_string s).

(** Big-endian bytes of [x], [k] of them. *)
Fixpoint be_bytes (k : nat) (x : Z) : list Z :=
  match k with
  | O => []
  | S k' => Z.land (Z.shiftr x (8 * Z.of_nat k')) 255 :: be_bytes k' x
  end.

(** Padding: [0x80], zeros up to 56 modulo 64, then the bit length on
    eight bytes. *)
Definition pad (msg : list Z) : list Z :=
  let len := Z.of_nat (length msg) in
  let zeros := Z.to_nat ((55 - len) mod 64) in
  (msg ++ 128 :: repeat 0 zeros ++ be_bytes 8 (8 * len))%list.

Fixpoint be_words (fuel : nat) (bs : list Z) : list Z :=
  match fuel, bs with
  | S fuel', a :: b :: c :: d :: rest =>
      (Z.shiftl a 24 + Z.shiftl b 16 + Z.shiftl c 8 + d) :: be_words fuel' rest
  | _, _ => []
  end.

(** The message schedule, most recent word first: [w[i]] is computed from
    [w[i-3]], [w[i-8]], [w[i-14]] and [w[i-16]]. *)
Fixpoint extend (k : nat) (rev_w : list Z) : list Z :=
  match k with
  | O => rev_w
  | S k' =>
      let x := Z.lxor (Z.lxor (nth 2 rev_w 0) (nth 7 rev_w 0))
                      (Z.lxor (nth 13 rev_w 0) (nth 15 rev_w 0)) in
      extend k' (rotl 1 x :: rev_w)
  end.

Definition schedule (block : list Z) : list Z :=
  rev (extend 64 (rev (be_words 16 block))).

Record regs := Regs { ra : Z; rb : Z; rc : Z; rd : Z; re : Z }.

Definition round_fk (i : nat) (r : regs) : Z * Z :=
  let b := rb r in let c := rc r in let d := rd r in
  if (i <? 20)%nat then
    (Z.lor (Z.land b c) (Z.land (Z.lxor b 4294967295) d), 1518500249)
  else if (i <? 40)%nat then
    (Z.lxor (Z.lxor b c) d, 1859775393)
  else if (i <? 60)%nat then
    (Z.lor (Z.lor (Z.land b c) (Z.land b d)) (Z.land c d), 2400959708)
  else
    (Z.lxor (Z.lxor b c) d, 3395469782).

Definition round (i : nat) (wi : Z) (r : regs) : regs :=
  let '(f, k) := round_fk i r in
  let temp := w32 (rotl 5 (ra r) + f + re r + k + wi) in
  Regs temp (ra r) (rotl 30 (rb r)) (rc r) (rd r).

Fixpoint rounds (i : nat) (ws : list Z) (r : regs) : regs :=
  match ws with
  | [] => r
  | wi :: ws' => rounds (S i) ws' (round i wi r)
  end.

Definition compress (h : regs) (block : list Z) : regs :=
  let r := rounds 0 (schedule block) h in
  Regs (w32 (ra h + ra r)) (w32 (rb h + rb r)) (w32 (rc h + rc r))
       (w32 (rd h + rd r)) (w32 (re h + re r)).

Fixpoint blocks (fuel : nat) (h : regs) (bs : list Z) : regs :=
  match fuel, bs with
  | S fuel', _ :: _ => blocks fuel' (compress h (firstn 64 bs)) (skipn 64 bs)
  | _, _ => h
  end.

Definition init : regs :=
  Regs 1732584193 4023233417 2562383102 271733878 3285377520.

Definition hex_digit (x : Z) : ascii :=
  if x <? 10 then ascii_of_nat (48 + Z.to_nat x) else ascii_of_nat (87 + Z.to_nat x).

Definition hex_byte (x : Z) : string :=
  String (hex_digit (Z.shiftr x 4)) (String (hex_digit (Z.land x 15)) EmptyString).

Definition hexdigest (r : regs) : string :=
  String.concat EmptyString
    (map hex_byte (flat_map (be_bytes 4) [ra r; rb r; rc r; rd r; re r])).

End Sha1.

(** [sha1(s)] of the source. *)
Definition sha1 (s : string) : string :=
  let msg := Sha1.pad (Sha1.byte_list s) in
  Sha1.hexdigest (Sha1.blocks (length msg) Sha1.init msg).

(** [safe_text(s)] for a value that is [None] or a [str]. *)
Definition safe_text_str (s : string) : string :=
  Py.strip (Py.replace_char Py.LF Py.SP (Py.replace_char Py.CR Py.SP s)).

Definition safe_text (s : option string) : string :=
  match s with
  | None => EmptyString
  | Some s => safe_text_str s
  end.

(** ** Data model *)

(** The item dictionaries the fetchers build. *)
Record Item := mkItem {
  it_id : string;
  it_title : string;
  it_url : string;
  it_summary : string;
  it_published : string;
  it_source : string
}.

(** A [feedparser] entry: each attribute read by [fetch_rss] is present
    or not. *)
Record Entry := mkEntry {
  e_link : option string;
  e_title : option string;
  e_summary : option string;
  e_published : option string;
  e_updated : option string;
  e_id : option string
}.

(** One element of [cfg["targets"]].  [id] and [kind] are read with
    [target[...]] before the [try]; the other keys with [target.get]. *)
Record Target := mkTarget {
  t_id : string;
  t_kind : string;
  t_title : option string;
  t_max_items : option Z;
  t_url : option string;
  t_important_keywords : list string;
  t_keywords : list string;
  t_acceptance : option string;
  t_sort : option string;
  t_order : option string
}.

(** [cfg]: the targets and the truth value of [notifiers.slack] and
    [notifiers.discord]. *)
Record Config := mkConfig {
  targets : list Target;
  slack_enabled : bool;
  discord_enabled : bool
}.

(** The dictionary kept in [.state/<id>.json], with the two keys that
    [run_once] reads and writes; either may be missing. *)
Record State := mkState {
  seen_ids : option (list string);
  last_run : option string
}.

(** What a state file holds: a JSON object, or bytes that [json.load]
    rejects with the given message. *)
Inductive FileContent :=
| Json (st : State)
| Garbage (err : string).

Inductive Result (A : Type) :=
| Ok (a : A)
| Raise (msg : string).
Arguments Ok {A} a.
Arguments Raise {A} msg.

Definition is_ok {A} (r : Result A) : bool :=
  match r with
  | Ok _ => true
  | Raise _ => false
  end.

(** What [run_once] does to the outside, in order.  [Notify] marks a call
    of [notify_all]; the two [Post] events are the webhook requests with
    their payload and whether [raise_for_status] passed. *)
Inductive Event :=
| Printed (line : string)
| Saved (path : string) (st : State)
| Notify (headline body url : string)
| PostSlack (webhook text : string) (ok : bool)
| PostDiscord (webhook title description url : string) (ok : bool).

(** [files] holds the content of each path, under the path as the program
    writes it: two paths are two files.  That is so of the state files of
    ids that are file names; an id with a separator in it may name the file
    of another path. *)
Record World := mkWorld {
  files : gmap string FileContent;
  ticks : nat;
  posts : nat;
  trace : list Event
}.

Record Env := mkEnv {
  (** [os.getenv] of the two webhook variables *)
  SLACK_WEBHOOK_URL : option string;
  DISCORD_WEBHOOK_URL : option string;
  (** [feedparser.parse(url).entries], or the exception it raises *)
  feedparser_parse : string -> Result (list Entry);
  (** the outcome of [fetch_egov_updates(max_items)] *)
  egov_updates : Z -> Result (list Item);
  (** the outcome of [fetch_jgrants(keywords, acceptance, sort, order, max_items)] *)
  jgrants : list string -> string -> string -> string -> Z -> Result (list Item);
  (** the answer to the [n]-th webhook request of the process *)
  http_post : nat -> string -> Result unit;
  (** the [n]-th reading of [now_jst_str()] *)
  clock : nat -> string;
  (** [list(set(l))] *)
  set_iter : list string -> list string;
  (** [str.lower] *)
  str_lower : string -> string;
  (** [open(p, "w")]: the file is opened, or the call raises -- as it
      does when the directory of [p] is missing or cannot be written to *)
  open_w : string -> Result unit
}.

(** What Python guarantees of [list(set(l))]: the elements of [l], once
    each, in an order of the interpreter's choosing. *)
Definition set_iter_ok (env : Env) : Prop :=
  forall l, NoDup (set_iter env l) /\ forall x, In x (set_iter env l) <-> In x l.

(** ** Computations *)

Definition M (A : Type) : Type := World -> Result A * World.

Global Instance M_ret : MRet M := fun A a w => (Ok a, w).

Global Instance M_bind : MBind M := fun A B f c w =>
  match c w with
  | (Ok a, w') => f a w'
  | (Raise msg, w') => (Raise msg, w')
  end.

Definition raise {A} (msg : string) : M A := fun w => (Raise msg, w).

Definition lift {A} (r : Result A) : M A := fun w => (r, w).

(** [try: body / except Exception as e: handler(str(e))] *)
Definition try_except {A} (body : M A) (handler : string -> M A) : M A := fun w =>
  match body w with
  | (Ok a, w') => (Ok a, w')
  | (Raise msg, w') => handler msg w'
  end.

Definition emit (e : Event) : M unit := fun w =>
  (Ok tt, mkWorld (files w) (ticks w) (posts w) (trace w ++ [e])).

Definition print (line : string) : M unit := emit (Printed line).

Fixpoint for_each {A} (body : A -> M unit) (l : list A) : M unit :=
  match l with
  | [] => mret tt
  | x :: l' => body x ;; for_each body l'
  end.

Definition NL : string := String Py.LF EmptyString.

Definition now_jst_str (env : Env) : M string := fun w =>
  (Ok (clock env (ticks w)), mkWorld (files w) (S (ticks w)) (posts w) (trace w)).

(** ** The state store *)

(** [ensure_dir(".state")] is taken to return. *)
Definition state_path (target_id : string) : string :=
  ".state/" +:+ target_id +:+ ".json".

Definition load_state (target_id : string) : M State := fun w =>
  match files w !! state_path target_id with
  | None => (Ok (mkState (Some []) None), w)
  | Some (Json st) => (Ok st, w)
  | Some (Garbage err) => (Raise err, w)
  end.

(** [open] may raise, and then nothing is written; once the file is open,
    [json.dump] is taken to succeed. *)
Definition save_state (env : Env) (target_id : string) (st : State) : M unit := fun w =>
  let p := state_path target_id in
  match open_w env p with
  | Ok _ =>
      (Ok tt, mkWorld (<[p := Json st]> (files w)) (ticks w) (posts w)
                      (trace w ++ [Saved p st]))
  | Raise msg => (Raise msg, w)
  end.

(** ** Fetchers *)

(** [getattr(e, name, default)] with the empty string as default *)
Definition getattr (a : option string) : string := default EmptyString a.

(** The body of the loop of [fetch_rss]. *)
Definition rss_item (e : Entry) : Item :=
  let link := safe_text_str (getattr (e_link e)) in
  let title := safe_text_str (getattr (e_title e)) in
  let summary := Py.take_chars 280 (safe_text_str (getattr (e_summary e))) in
  let published :=
    safe_text_str (Py.or_else (getattr (e_published e)) (getattr (e_updated e))) in
  let entry_id :=
    Py.or_else (safe_text_str (getattr (e_id e))) (sha1 (Py.or_else link title)) in
  mkItem entry_id title link summary published "RSS".

Definition fetch_rss (env : Env) (url : string) (max_items : Z) : M (list Item) :=
  entries ← lift (feedparser_parse env url);
  mret (map rss_item (Py.slice_to max_items entries)).

(** The two API fetchers are taken at their boundary, past the wire
    format of their provider: the items they return, or the exception they
    raise. *)
Definition fetch_egov_updates (env : Env) (max_items : Z) : M (list Item) :=
  lift (egov_updates env max_items).

Definition fetch_jgrants (env : Env) (keywords : list string)
    (acceptance sort order : string) (max_items : Z) : M (list Item) :=
  lift (jgrants env keywords acceptance sort order max_items).

(** ** Importance scoring *)

(** The two variables the rules assign. *)
Record Score := mkScore {
  level : string;
  comment : string
}.

Definition security_spikes : list string :=
  ["緊急"; "critical"; "rce"; "remote code"; "権限昇格"; "ゼロデイ"; "0day"].

Definition security_terms : list string :=
  ["脆弱性"; "xss"; "csrf"; "sql"; "認証"; "漏えい"; "パストラバーサル"].

Definition grant_terms : list string := ["it"; "dx"; "設備"; "省力化"].

Definition large_limits : list string := ["10000000"; "5000000"; "3000000"].

Definition item_text (env : Env) (item : Item) : string :=
  let title := str_lower env (safe_text_str (it_title item)) in
  let summary := str_lower env (safe_text_str (it_summary item)) in
  title +:+ " " +:+ summary.

(** # Defaults *)
Definition score_default : Score :=
  mkScore "C" "チェック対象に変化あり。念のため確認推奨。".

(** # Security spikes: the [if] / [elif] pair *)
Definition score_security (text : string) (s : Score) : Score :=
  if Py.any_in security_spikes text then
    mkScore "S" "危険度高めの匂い。社内IT/委託先に即共有が安全。"
  else if Py.any_in security_terms text then
    mkScore "A" "セキュリティ系。影響範囲の棚卸し（該当製品/バージョン）を先にやると早い。"
  else s.

(** # Law updates: boost by keywords *)
Definition score_law (env : Env) (target : Target) (text : string) (s : Score) : Score :=
  if String.eqb (t_kind target) "egov_law_updates" then
    let kws := t_important_keywords target in
    if existsb (fun k => Py.contains (str_lower env k) text) kws then
      mkScore (if negb (String.eqb (level s) "S") then "A" else level s)
              "法改正/更新の可能性。対象業務（契約書/規程/労務）に影響あるか確認。"
    else s
  else s.

(** # Grants, first test: the relevance keywords *)
Definition score_grant_terms (target : Target) (text : string) (s : Score) : Score :=
  if String.eqb (t_kind target) "jgrants" then
    if Py.any_in grant_terms text then
      mkScore (if String.eqb (level s) "C" then "B" else level s) (comment s)
    else s
  else s.

(** # Grants, second test: a large upper limit in the summary *)
Definition score_grant_limit (target : Target) (item : Item) (s : Score) : Score :=
  if String.eqb (t_kind target) "jgrants" then
    let summary := safe_text_str (it_summary item) in
    if Py.contains "上限:" summary && Py.any_in large_limits summary then
      mkScore (if negb (String.eqb (level s) "S") then "A" else level s)
              "補助金チャンス。締切と要件を先に確認→当てはまるなら最短で動ける。"
    else s
  else s.

(** The running score after each rule, in the order of the source. *)
Definition score_steps (env : Env) (item : Item) (target : Target) : list Score :=
  let text := item_text env item in
  let s1 := score_default in
  let s2 := score_security text s1 in
  let s3 := score_law env target text s2 in
  let s4 := score_grant_terms target text s3 in
  let s5 := score_grant_limit target item s4 in
  [s1; s2; s3; s4; s5].

Definition final_score (env : Env) (item : Item) (target : Target) : Score :=
  let text := item_text env item in
  score_grant_limit target item
    (score_grant_terms target text
       (score_law env target text (score_security text score_default))).

(** [{"S": ..., "A": ..., "B": ..., "C": ...}[level]]: a missing key raises. *)
Definition emoji_of (lv : string) : Result string :=
  if String.eqb lv "S" then Ok "🟥"
  else if String.eqb lv "A" then Ok "🟧"
  else if String.eqb lv "B" then Ok "🟨"
  else if String.eqb lv "C" then Ok "🟦"
  else Raise ("'" +:+ lv +:+ "'").

Definition importance_level (env : Env) (item : Item) (target : Target)
    : Result (string * string) :=
  let s := final_score env item target in
  match emoji_of (level s) with
  | Ok emoji => Ok (level s, emoji +:+ " " +:+ comment s)
  | Raise msg => Raise msg
  end.

(** The order [S > A > B > C]. *)
Definition level_rank (lv : string) : option nat :=
  if String.eqb lv "C" then Some 0
  else if String.eqb lv "B" then Some 1
  else if String.eqb lv "A" then Some 2
  else if String.eqb lv "S" then Some 3
  else None.

Definition level_le (a b : string) : Prop :=
  match level_rank a, level_rank b with
  | Some x, Some y => x <= y
  | _, _ => False
  end.

(** ** Notifiers *)

Definition post_slack (env : Env) (webhook_url text : string) : M unit := fun w =>
  let r := http_post env (posts w) webhook_url in
  (r, mkWorld (files w) (ticks w) (S (posts w))
              (trace w ++ [PostSlack webhook_url text (is_ok r)])).

Definition post_discord (env : Env) (webhook_url title description url : string)
    : M unit := fun w =>
  let r := http_post env (posts w) webhook_url in
  (r, mkWorld (files w) (ticks w) (S (posts w))
              (trace w ++ [PostDiscord webhook_url (Py.take_chars 256 title)
                             (Py.take_chars 4096 description) url (is_ok r)])).

Definition notify_all (env : Env) (cfg : Config) (headline body url : string) : M unit :=
  emit (Notify headline body url);;
  let slack_url := Py.strip (default EmptyString (SLACK_WEBHOOK_URL env)) in
  let discord_url := Py.strip (default EmptyString (DISCORD_WEBHOOK_URL env)) in
  (if slack_enabled cfg && Py.truthy slack_url
   then post_slack env slack_url (headline +:+ NL +:+ body +:+ NL +:+ url)
   else mret tt);;
  (if discord_enabled cfg && Py.truthy discord_url
   then post_discord env discord_url headline (body +:+ NL +:+ NL +:+ url) url
   else mret tt).

(** ** Core *)

(** [x in l] *)
Definition mem (x : string) (l : list string) : bool := existsb (String.eqb x) l.

(** [for x in merged: if x not in dedup: dedup.append(x)] *)
Definition dedup_step (dedup : list string) (x : string) : list string :=
  if mem x dedup then dedup else dedup ++ [x].

Definition dedup_loop (merged : list string) : list string :=
  fold_left dedup_step merged [].

(** [[it for it in items if it["id"] not in seen]] *)
Definition new_items_of (items : list Item) (seen : list string) : list Item :=
  List.filter (fun it => negb (mem (it_id it) seen)) items.

(** [st.get("seen_ids", [])] *)
Definition stored_ids (st : State) : list string := default [] (seen_ids st).

(** The list assigned to [st["seen_ids"]]. *)
Definition updated_ids (env : Env) (items : list Item) (seen : list string) : list string :=
  let merged := map it_id items ++ set_iter env seen in
  firstn 300 (dedup_loop merged).

Definition target_title (target : Target) : string := default (t_id target) (t_title target).

(** [int(target.get("max_items", 20))] of a value that is an integer.
    The conversion is made before the [try] (line 274): a value that does
    not convert ends [run_once], and is no value of [t_max_items]. *)
Definition target_max_items (target : Target) : Z := default 20%Z (t_max_items target).

Definition item_headline (title lv : string) : string :=
  "🚨 更新検知 [" +:+ title +:+ "]（重要度:" +:+ lv +:+ "）".

Definition item_body (ai_comment : string) (it : Item) : string :=
  ai_comment +:+ NL +:+ "・タイトル: " +:+ safe_text_str (it_title it)
  +:+ NL +:+ "・概要: " +:+ safe_text_str (it_summary it)
  +:+ NL +:+ "・日時: " +:+ safe_text_str (it_published it)
  +:+ NL +:+ "・ソース: " +:+ safe_text_str (it_source it).

(** The body of [for it in top]. *)
Definition notify_item (env : Env) (cfg : Config) (target : Target) (it : Item) : M unit :=
  '(lv, ai_comment) ← lift (importance_level env it target);
  notify_all env cfg (item_headline (target_title target) lv)
    (item_body ai_comment it) (safe_text_str (it_url it)).

Definition overflow_headline (title : string) : string :=
  "📌 追加更新 [" +:+ title +:+ "]".

Definition overflow_body (rest : nat) : string :=
  "他 " +:+ Py.str_of_nat rest
  +:+ " 件の新規/更新がありました。必要なら max_items を上げて追跡できます。".

Definition overflow_url : string := "（リンクは各通知参照）".

(** # Update state (keep latest 300 ids): the two assignments to [st] and
    [save_state]. *)
Definition update_state (env : Env) (target : Target) (items : list Item)
    (seen : list string) : M unit :=
  let ids := updated_ids env items seen in
  now ← now_jst_str env;
  save_state env (t_id target) (mkState (Some ids) (Some now)).

(** # Notify (send up to 3 items, summarize rest), and the [print] that
    closes the [try]. *)
Definition dispatch (env : Env) (cfg : Config) (target : Target)
    (new_items : list Item) : M unit :=
  for_each (notify_item env cfg target) (firstn 3 new_items);;
  (if (3 <? length new_items)%nat
   then notify_all env cfg (overflow_headline (target_title target))
          (overflow_body (length new_items - 3)) overflow_url
   else mret tt);;
  print ("  - " +:+ t_id target +:+ ": notified "
         +:+ Py.str_of_nat (length new_items) +:+ " change(s)").

(** Lines 293-325: from [load_state] to the end of the [try]. *)
Definition handle_items (env : Env) (cfg : Config) (target : Target)
    (items : list Item) : M unit :=
  st ← load_state (t_id target);
  let seen := stored_ids st in
  let new_items := new_items_of items seen in
  match new_items with
  | [] => print ("  - " +:+ t_id target +:+ ": no changes")
  | _ :: _ =>
      update_state env target items seen;;
      dispatch env cfg target new_items
  end.

(** [target["url"]]: a missing key raises [KeyError]. *)
Definition target_url (target : Target) : M string :=
  match t_url target with
  | Some url => mret url
  | None => raise "'url'"
  end.

(** The [try] block of [run_once]. *)
Definition try_body (env : Env) (cfg : Config) (target : Target) : M unit :=
  let tid := t_id target in
  let kind := t_kind target in
  let max_items := target_max_items target in
  if String.eqb kind "rss" then
    url ← target_url target;
    items ← fetch_rss env url max_items;
    handle_items env cfg target items
  else if String.eqb kind "egov_law_updates" then
    items ← fetch_egov_updates env max_items;
    handle_items env cfg target items
  else if String.eqb kind "jgrants" then
    items ← fetch_jgrants env (t_keywords target)
              (default "1" (t_acceptance target))
              (default "acceptance_end_datetime" (t_sort target))
              (default "ASC" (t_order target)) max_items;
    handle_items env cfg target items
  else
    print ("  - " +:+ tid +:+ ": unknown kind=" +:+ kind +:+ " (skip)").

Definition error_headline (title : string) : string :=
  "⚠️ 取得失敗 [" +:+ title +:+ "]".

Definition error_body (now kind msg : string) : string :=
  "時刻: " +:+ now +:+ NL +:+ "種別: " +:+ kind +:+ NL +:+ "エラー: " +:+ msg
  +:+ NL +:+ "対処: URL/パラメータ/ネットワークを確認".

(** The [except Exception as e] block. *)
Definition on_error (env : Env) (cfg : Config) (target : Target) (e : string) : M unit :=
  let msg := safe_text_str e in
  now ← now_jst_str env;
  notify_all env cfg (error_headline (target_title target))
    (error_body now (t_kind target) msg) (default EmptyString (t_url target));;
  print ("  - " +:+ t_id target +:+ ": ERROR " +:+ msg).

(** One iteration of [for target in cfg.get("targets", [])]. *)
Definition process_target (env : Env) (cfg : Config) (target : Target) : M unit :=
  try_except (try_body env cfg target) (on_error env cfg target).

Definition run_once (env : Env) (cfg : Config) : M unit :=
  now ← now_jst_str env;
  print ("[" +:+ now +:+ "] run_once start");;
  for_each (process_target env cfg) (targets cfg);;
  now' ← now_jst_str env;
  print ("[" +:+ now' +:+ "] run_once end").

(** What the fetch step of a target yields, read off [try_body]: [None]
    for a kind that has no fetcher. *)
Definition fetch_outcome (env : Env) (target : Target) : option (Result (list Item)) :=
  let max_items := target_max_items target in
  if String.eqb (t_kind target) "rss" then
    Some match t_url target with
         | None => Raise "'url'"
         | Some url =>
             match feedparser_parse env url with
             | Ok entries => Ok (map rss_item (Py.slice_to max_items entries))
             | Raise msg => Raise msg
             end
         end
  else if String.eqb (t_kind target) "egov_law_updates" then
    Some (egov_updates env max_items)
  else if String.eqb (t_kind target) "jgrants" then
    Some (jgrants env (t_keywords target) (default "1" (t_acceptance target))
            (default "acceptance_end_datetime" (t_sort target))
            (default "ASC" (t_order target)) max_items)
  else None.

(** ** Reading a trace *)

Definition is_notify (e : Event) : bool :=
  match e with
  | Notify _ _ _ => true
  | _ => false
  end.

Definition is_post (e : Event) : bool :=
  match e with
  | PostSlack _ _ _ | PostDiscord _ _ _ _ _ => true
  | _ => false
  end.

Definition is_saved (e : Event) : bool :=
  match e with
  | Saved _ _ => true
  | _ => false
  end.

(** The calls of [notify_all] recorded in a trace. *)
Definition notifications (tr : list Event) : list Event := List.filter is_notify tr.

Definition empty_world : World := mkWorld ∅ 0 0 [].

(** Every webhook request is answered with a success status. *)
Definition posts_succeed (env : Env) : Prop :=
  forall n url, http_post env n url = Ok tt.

(** [c] leaves the state files alone and adds to the trace only events
    accepted by [P]. *)
Definition emits_only {A} (P : Event -> bool) (c : M A) : Prop :=
  forall w, files (c w).2 = files w
            /\ exists d, trace (c w).2 = trace w ++ d /\ forallb P d = true.

Definition not_saved (e : Event) : bool := negb (is_saved e).

(** The notification [run_once] sends for a new item. *)
Definition item_notification (env : Env) (target : Target) (it : Item) : option Event :=
  match importance_level env it target with
  | Ok (lv, ai_comment) =>
      Some (Notify (item_headline (target_title target) lv)
              (item_body ai_comment it) (safe_text_str (it_url it)))
  | Raise _ => None
  end.




(** The webhook [notify_all] posts to first. *)
Definition slack_url_of (env : Env) : string :=
  Py.strip (default EmptyString (SLACK_WEBHOOK_URL env)).

Definition slack_text (headline body url : string) : string :=
  headline +:+ NL +:+ body +:+ NL +:+ url.

(** What is left of [dispatch] once the first new item has been handled. *)
Definition dispatch_after_first (env : Env) (cfg : Config) (target : Target)
    (new_items : list Item) : M unit :=
  for_each (notify_item env cfg target) (firstn 2 (tl new_items));;
  (if (3 <? length new_items)%nat
   then notify_all env cfg (overflow_headline (target_title target))
          (overflow_body (length new_items - 3)) overflow_url
   else mret tt);;
  print ("  - " +:+ t_id target +:+ ": notified "
         +:+ Py.str_of_nat (length new_items) +:+ " change(s)").

(** The world after one more [print]. *)
Definition printed (w : World) (line : string) : World :=
  mkWorld (files w) (ticks w) (posts w) (trace w ++ [Printed line]).

Definition skip_line (target : Target) : string :=
  "  - " +:+ t_id target +:+ ": unknown kind=" +:+ t_kind target +:+ " (skip)".

Definition no_changes_line (target : Target) : string :=
  "  - " +:+ t_id target +:+ ": no changes".

(** Each score of the list is at least as severe as the one before. *)
Fixpoint nondecreasing (l : list Score) : Prop :=
  match l with
  | [] => True
  | a :: l' =>
      match l' with
      | [] => True
      | b :: _ => level_le (level a) (level b) /\ nondecreasing l'
      end
  end.

Definition levels : list string := ["C"; "B"; "A"; "S"].

(** The state file of the target is absent, or holds a JSON object of the
    shape of [State]: its [seen_ids], when present, a list of strings. *)
Definition loadable (target : Target) (w : World) : Prop :=
  forall err, files w !! state_path (t_id target) <> Some (Garbage err).

(** The state file of the target can be opened for writing. *)
Definition writable (env : Env) (target : Target) : Prop :=
  open_w env (state_path (t_id target)) = Ok tt.

(** An id that is a file name: it has no separator in it, so that
    [.state/<id>.json] is a file of [.state] itself, and two such ids name
    two files. *)
Definition plain_id (target_id : string) : Prop := Py.contains "/" target_id = false.

(** The world after one more reading of the clock. *)
Definition clock_read (w : World) : World :=
  mkWorld (files w) (S (ticks w)) (posts w) (trace w).

(** What [load_state] returns then. *)
Definition loaded_state (target : Target) (w : World) : State :=
  match files w !! state_path (t_id target) with
  | Some (Json st) => st
  | _ => mkState (Some []) None
  end.

(** The new items of a target, given what was fetched. *)
Definition new_items (target : Target) (items : list Item) (w : World) : list Item :=
  new_items_of items (stored_ids (loaded_state target w)).

(** The dictionary [update_state] writes, and the world it leaves. *)
Definition saved_state (env : Env) (target : Target) (items : list Item) (w : World) : State :=
  mkState (Some (updated_ids env items (stored_ids (loaded_state target w))))
          (Some (clock env (ticks w))).

Definition saved_world (env : Env) (target : Target) (items : list Item) (w : World) : World :=
  mkWorld (<[state_path (t_id target) := Json (saved_state env target items w)]> (files w))
          (S (ticks w)) (posts w)
          (trace w ++ [Saved (state_path (t_id target)) (saved_state env target items w)]).

Definition error_notification (target : Target) (now msg : string) : Event :=
  Notify (error_headline (target_title target))
    (error_body now (t_kind target) (safe_text_str msg))
    (default EmptyString (t_url target)).

(** The seen list as the specification words it: the ids of the fetched
    items in fetch order, then the previously seen ids (in the order they
    were stored) that are not already included, first occurrences only,
    cut to 300 entries. *)
Definition seen_ids_by_spec (items : list Item) (previous : list string) : list string :=
  firstn 300 (dedup_loop (map it_id items ++ previous)).



(** The worlds after the first and before the last line of [run_once]. *)
Definition started (env : Env) (w : World) : World :=
  printed (mkWorld (files w) (S (ticks w)) (posts w) (trace w))
          ("[" +:+ clock env (ticks w) +:+ "] run_once start").

Definition ended (env : Env) (w : World) : World :=
  printed (mkWorld (files w) (S (ticks w)) (posts w) (trace w))
          ("[" +:+ clock env (ticks w) +:+ "] run_once end").

(** ** Sample runs *)

Definition numbered_entry (n : nat) : Entry :=
  mkEntry (Some ("https://example.org/" +:+ Py.str_of_nat n))
          (Some ("Post " +:+ Py.str_of_nat n)) None None None
          (Some ("tag:example.org," +:+ Py.str_of_nat n)).

Definition feed_of (n : nat) : list Entry := map numbered_entry (seq 0 n).

Definition blog : Target :=
  mkTarget "blog" "rss" (Some "Blog") (Some 400%Z) (Some "https://example.org/feed")
           [] [] None None None.

Definition laws : Target :=
  mkTarget "laws" "egov_law_updates" None None None ["労働"] [] None None None.

Definition podcast : Target :=
  mkTarget "cast" "podcast" None None (Some "https://example.org/cast") [] [] None None None.

Definition posts_ok : nat -> string -> Result unit := fun _ _ => Ok tt.

Definition slack_hook : string := "https://hooks.slack.example/T0".
Definition discord_hook : string := "https://discord.example/api/webhooks/1".

(** The Slack webhook answers 500; every other request succeeds. *)
Definition slack_down : nat -> string -> Result unit := fun _ url =>
  if String.eqb url slack_hook then Raise "500 Server Error" else Ok tt.

(** Only the first request of the process fails. *)
Definition first_post_fails : nat -> string -> Result unit := fun n _ =>
  if (n =? 0)%nat then Raise "500 Server Error" else Ok tt.

(** Two entries without [id], with the same link and different titles. *)
Definition morning_entry : Entry :=
  mkEntry (Some "https://example.org/status") (Some "Status: all systems normal")
          None None None None.

Definition evening_entry : Entry :=
  mkEntry (Some "https://example.org/status") (Some "Status: outage in progress")
          None None None None.

(** A full seen list: 300 ids, the most recently seen first. *)
Definition old_ids : list string := map (fun n => "old-" +:+ Py.str_of_nat n) (seq 0 300).

Definition insertion_order : list string -> list string := dedup_loop.

Definition reverse_order : list string -> list string := fun l => rev (dedup_loop l).

(** A directory [.state] without subdirectories: a file can be created
    in it, and nowhere below it. *)
Definition flat_state_dir : string -> Result unit := fun p =>
  if Py.contains "/" (Py.drop_string 7 p)
  then Raise ("[Errno 2] No such file or directory: '" +:+ p +:+ "'")
  else Ok tt.

(** A feed of [n] entries, an e-Gov API that is down, the given webhook
    answers and set order, and a [.state] without subdirectories. *)
Definition sample_env (n : nat) (post : nat -> string -> Result unit)
    (order : list string -> list string) : Env :=
  mkEnv (Some slack_hook) (Some discord_hook)
        (fun _ => Ok (feed_of n))
        (fun _ => Raise "503 Server Error: Service Unavailable")
        (fun _ _ _ _ _ => Ok [])
        post
        (fun k => "2026-01-01 09:00:0" +:+ Py.str_of_nat k +:+ " JST")
        order Py.lower_ascii flat_state_dir.

(** A target whose id has a path separator in it. *)
Definition nested : Target :=
  mkTarget "a/b" "rss" None None (Some "https://example.org/feed") [] [] None None None.

Definition sample_items (n : nat) : list Item := map rss_item (feed_of n).

Definition world_with (target : Target) (content : FileContent) : World :=
  mkWorld {[ state_path (t_id target) := content ]} 0 0 [].

(** ** More of Python's built-ins *)

Module PyExt.

(** [len(s)]: the number of code points, one per byte that is not a
    continuation byte. *)
Fixpoint len (s : string) : nat :=
  match s with
  | EmptyString => 0
  | String c s' => if Py.is_continuation c then len s' else S (len s')
  end.

(** [s.endswith(w)] *)
Definition ends_with (w s : string) : bool :=
  Py.starts_with (Py.rev_string w) (Py.rev_string s).

(** [sep.join(l)] *)
Fixpoint join (sep : string) (l : list string) : string :=
  match l with
  | [] => EmptyString
  | x :: l' =>
      match l' with
      | [] => x
      | _ :: _ => x +:+ sep +:+ join sep l'
      end
  end.

(** [a < b] on two [str]: code points in order, which on UTF-8 is the
    order of the bytes. *)
Fixpoint ltb (a b : string) : bool :=
  match a, b with
  | _, EmptyString => false
  | EmptyString, String _ _ => true
  | String x a', String y b' =>
      if (nat_of_ascii x <? nat_of_ascii y)%nat then true
      else if (nat_of_ascii y <? nat_of_ascii x)%nat then false
      else ltb a' b'
  end.

(** [str(n)] for an [int]. *)
Definition str_of_Z (z : Z) : string :=
  if (z <? 0)%Z then "-" +:+ Py.str_of_nat (Z.to_nat (- z))
  else Py.str_of_nat (Z.to_nat z).

End PyExt.

(** ** [fetch_egov_updates], past the request and the XML parser *)

Module Egov.

(** One [LawNameListInfo] element: what [findtext] gives for each child,
    [None] when the child is missing. *)
Record LawInfo := mkLawInfo {
  LawName : option string;
  LawNo : option string;
  AmendName : option string;
  EnforcementDate : option string;
  PromulgationDate : option string
}.

(** What [http_get] and [ET.fromstring] give: the exception of either, or
    the [LawNameListInfo] elements under [ApplData] -- [None] when the
    document has no [ApplData]. *)
Definition Response : Type := Result (option (list LawInfo)).

Definition link : string := "https://laws.e-gov.go.jp/".

(** The body of the loop over the elements. *)
Definition law_item (date_str : string) (info : LawInfo) : Item :=
  let law_name := safe_text (LawName info) in
  let law_no := safe_text (LawNo info) in
  let amend := safe_text (AmendName info) in
  let enforced := safe_text (EnforcementDate info) in
  let promulg := safe_text (PromulgationDate info) in
  let entry_id :=
    sha1 (date_str +:+ "|" +:+ law_no +:+ "|" +:+ law_name +:+ "|" +:+ amend
          +:+ "|" +:+ enforced) in
  let summary :=
    PyExt.join " / "
      (List.filter Py.truthy
         [law_no; amend; "施行日:" +:+ enforced; "公布日:" +:+ promulg]) in
  mkItem entry_id (Py.or_else law_name "(法令名不明)") link
         (Py.take_chars 280 summary) date_str "e-Gov法令API".

(** [date_str] is the reading of [yyyymmdd_jst()] the function starts
    with. *)
Definition fetch_egov_updates (date_str : string) (response : Response)
    (max_items : Z) : Result (list Item) :=
  match response with
  | Raise msg => Raise msg
  | Ok None => Ok []
  | Ok (Some infos) => Ok (Py.slice_to max_items (map (law_item date_str) infos))
  end.

End Egov.

(** ** [fetch_jgrants], past the requests and the JSON decoder *)

Module JGrants.

(** The JSON values the fields of a row are taken to hold. *)
Inductive JValue :=
| JNull
| JString (s : string)
| JInt (n : Z).

(** One element of [result]: the keys the function reads, [None] for a
    key the object does not have. *)
Record Row := mkRow {
  r_id : option JValue;
  r_title : option JValue;
  r_name : option JValue;
  r_target_area_search : option JValue;
  r_subsidy_max_limit : option JValue;
  r_acceptance_start_datetime : option JValue;
  r_acceptance_end_datetime : option JValue
}.

(** [str(v)] *)
Definition str (v : JValue) : string :=
  match v with
  | JNull => "None"
  | JString s => s
  | JInt n => PyExt.str_of_Z n
  end.

(** [bool(v)] *)
Definition truthy (v : JValue) : bool :=
  match v with
  | JNull => false
  | JString s => Py.truthy s
  | JInt n => negb (n =? 0)%Z
  end.

(** [row.get(key)] *)
Definition get (field : option JValue) : JValue := default JNull field.

(** [a or b] *)
Definition or_else (a b : JValue) : JValue := if truthy a then a else b.

(** [safe_text(v)] *)
Definition safe_text_of (v : JValue) : string :=
  match v with
  | JNull => EmptyString
  | _ => safe_text_str (str v)
  end.

(** What one request gives: the exception of [http_get] or of [.json()],
    or the rows of [r.get("result", []) or []]. *)
Definition Response : Type := Result (list Row).

(** [all_results[sid] = row] on a dictionary kept in insertion order: a key
    that is present keeps its place and takes the new row. *)
Fixpoint dict_set (sid : string) (row : Row) (d : list (string * Row))
    : list (string * Row) :=
  match d with
  | [] => [(sid, row)]
  | (k, v) :: d' =>
      if String.eqb k sid then (k, row) :: d' else (k, v) :: dict_set sid row d'
  end.

(** The body of [for row in ...]. *)
Definition add_row (d : list (string * Row)) (row : Row) : list (string * Row) :=
  let sid := safe_text_of (get (r_id row)) in
  if Py.truthy sid then dict_set sid row d else d.

(** [for kw in keywords], with [request kw] the outcome of the request
    made for [kw]. *)
Fixpoint collect (request : string -> Response) (keywords : list string)
    (d : list (string * Row)) : Result (list (string * Row)) :=
  match keywords with
  | [] => Ok d
  | kw :: keywords' =>
      match request kw with
      | Raise msg => Raise msg
      | Ok rows => collect request keywords' (fold_left add_row rows d)
      end
  end.

Definition end_dt (x : Row) : string :=
  safe_text_of (get (r_acceptance_end_datetime x)).

(** [rows.sort(key=end_dt)]: the sort is stable, so it is the insertion of
    each row, in turn, behind the rows whose key is not greater. *)
Fixpoint insert_row (x : Row) (l : list Row) : list Row :=
  match l with
  | [] => [x]
  | y :: l' => if PyExt.ltb (end_dt x) (end_dt y) then x :: l else y :: insert_row x l'
  end.

Definition sort_rows (rows : list Row) : list Row :=
  fold_left (fun sorted x => insert_row x sorted) rows [].

(** The body of [for row in rows[:max_items]]. *)
Definition grant_item (row : Row) : Item :=
  let sid := safe_text_of (get (r_id row)) in
  let title :=
    safe_text_of (or_else (or_else (get (r_title row)) (get (r_name row)))
                    (JString "（補助金）")) in
  let area := safe_text_of (get (r_target_area_search row)) in
  let max_limit := default (JString EmptyString) (r_subsidy_max_limit row) in
  let start := safe_text_of (get (r_acceptance_start_datetime row)) in
  let end_ := safe_text_of (get (r_acceptance_end_datetime row)) in
  let link := "https://www.jgrants-portal.go.jp/subsidy/" +:+ sid in
  let summary :=
    "地域:" +:+ area +:+ " / 上限:" +:+ str max_limit +:+ " / 期間:" +:+ start
    +:+ " → " +:+ end_ in
  mkItem sid title link (Py.take_chars 280 summary) (Py.or_else end_ start)
         "JグランツAPI".

(** [request] answers for the parameters [acceptance], [sort] and [order]
    of the call. *)
Definition fetch_jgrants (request : string -> Response) (keywords : list string)
    (max_items : Z) : Result (list Item) :=
  match collect request keywords [] with
  | Raise msg => Raise msg
  | Ok all_results =>
      let rows := sort_rows (map snd all_results) in
      Ok (map grant_item (Py.slice_to max_items rows))
  end.

End JGrants.

(** ** [main]: one cycle, or the watch loop *)

(** The options [main] reads. *)
Record Args := mkArgs {
  a_once : bool;
  a_watch : bool;
  a_interval : option Z
}.

(** [args.interval or int(cfg.get("watch", {}).get("interval_sec", 300))] *)
Definition interval_of (args : Args) (interval_sec : option Z) : Z :=
  match a_interval args with
  | Some z => if (z =? 0)%Z then default 300%Z interval_sec else z
  | None => default 300%Z interval_sec
  end.

(** [time.sleep(secs)] for a length that the C time type holds, which is
    any below some 9.2e9 seconds in absolute value ([OverflowError] takes
    the place of both outcomes beyond): a negative length raises
    [ValueError]. *)
Definition sleep (secs : Z) : M unit :=
  if (secs <? 0)%Z then raise "sleep length must be non-negative" else mret tt.

(** The first [n] rounds of [while True: run_once(cfg); time.sleep(interval)]. *)
Fixpoint watch (n : nat) (env : Env) (cfg : Config) (interval : Z) : M unit :=
  match n with
  | O => mret tt
  | S n' => run_once env cfg;; sleep interval;; watch n' env cfg interval
  end.

(** The last lines of [main] (353 to 358), with the watch loop followed
    for [n] rounds.  What comes before them -- the arguments parsed, the
    configuration loaded, the interval converted by [int] -- may raise, and
    then no cycle is run; [cfg], [interval_sec] and [args] are what these
    lines leave when they return. *)
Definition main (n : nat) (env : Env) (cfg : Config) (interval_sec : option Z)
    (args : Args) : M unit :=
  let interval := interval_of args interval_sec in
  if a_watch args then watch n env cfg interval else run_once env cfg.

(** ** [notify_hub/cli.py] *)

Module Cli.

(** A webhook request with the key and the text of its payload and
    whether [raise_for_status] passed, or a printed line. *)
Inductive Event :=
| Request (url key text : string) (ok : bool)
| Line (text : string).

Definition title : string := "notify-hub テスト".
Definition body : string := "まずは通知だけ飛ばす（監視は次）".

(** [if slack:] on the value of [os.getenv]. *)
Definition set (v : option string) : bool := Py.truthy (default EmptyString v).

(** [main()]: [answer n url] is the outcome of the [n]-th request. *)
Definition main (slack discord : option string) (answer : nat -> string -> Result unit)
    : Result unit * list Event :=
  let after_slack :=
    if set slack then
      let url := default EmptyString slack in
      let r := answer 0 url in
      let ev := Request url "text" ("*" +:+ title +:+ "*" +:+ NL +:+ body) (is_ok r) in
      match r with
      | Ok _ => (Ok tt, [ev; Line "✅ Slack OK"], 1)
      | Raise msg => (Raise msg, [ev], 1)
      end
    else (Ok tt, [], 0) in
  match after_slack with
  | (Raise msg, evs, _) => (Raise msg, evs)
  | (Ok _, evs, n) =>
      let after_discord :=
        if set discord then
          let url := default EmptyString discord in
          let r := answer n url in
          let ev := Request url "content" ("**" +:+ title +:+ "**" +:+ NL +:+ body)
                      (is_ok r) in
          match r with
          | Ok _ => (Ok tt, evs ++ [ev; Line "✅ Discord OK"])
          | Raise msg => (Raise msg, evs ++ [ev])
          end
        else (Ok tt, evs) in
      match after_discord with
      | (Raise msg, evs') => (Raise msg, evs')
      | (Ok _, evs') =>
          if negb (set slack) && negb (set discord)
          then (Ok tt, evs' ++ [Line "⚠️ .envにWebhookが入ってない"])
          else (Ok tt, evs')
      end
  end.

End Cli.

(** ** What the extra properties speak of *)

(** A state dictionary whose seen list, if it has one, holds at most 300
    ids, none of them twice. *)
Definition bounded_state (st : State) : Prop :=
  match seen_ids st with
  | Some ids => length ids <= 300 /\ NoDup ids
  | None => True
  end.

Definition bounded_files (w : World) : Prop :=
  forall p st, files w !! p = Some (Json st) -> bounded_state st.

(** No CR and no LF among the bytes. *)
Definition one_line (s : string) : Prop :=
  Forall (fun c => c <> Py.CR /\ c <> Py.LF) (list_ascii_of_string s).

(** Neither a whitespace character at the start nor one at the end. *)
Definition stripped (s : string) : Prop :=
  Forall (fun w => Py.starts_with w s = false /\ PyExt.ends_with w s = false)
         Py.whitespace.

Definition hex_char (c : ascii) : Prop :=
  In c (list_ascii_of_string "0123456789abcdef").

(** Neither destination is both enabled and given a URL. *)
Definition no_destination (env : Env) (cfg : Config) : Prop :=
  (slack_enabled cfg = false \/ slack_url_of env = EmptyString)
  /\ (discord_enabled cfg = false
      \/ Py.strip (default EmptyString (DISCORD_WEBHOOK_URL env)) = EmptyString).

(** Ascending in [end_dt], as [list.sort] leaves the rows. *)
Fixpoint ascending (rows : list JGrants.Row) : Prop :=
  match rows with
  | [] => True
  | x :: rows' =>
      Forall (fun y => PyExt.ltb (JGrants.end_dt y) (JGrants.end_dt x) = false) rows'
      /\ ascending rows'
  end.

(** The webhook requests recorded in the trace of a world. *)
Definition requests (w : World) : list Event := List.filter is_post (trace w).

(** [c] takes every world to one that [R] relates it to. *)
Definition preserves {A} (R : World -> World -> Prop) (c : M A) : Prop :=
  forall w, R w (c w).2.

(** No request is made on the way from [w] to [w']. *)
Definition same_requests (w w' : World) : Prop :=
  posts w' = posts w /\ requests w' = requests w.

Definition stays_bounded (w w' : World) : Prop :=
  bounded_files w -> bounded_files w'.

(** A webhook request as the two services accept it: to a URL that is not
    empty and carries no whitespace around it, and for Discord with a
    title of at most 256 and a description of at most 4096 characters. *)
Definition well_formed_request (e : Event) : Prop :=
  match e with
  | PostSlack url _ _ => url <> EmptyString /\ stripped url
  | PostDiscord url title description _ _ =>
      url <> EmptyString /\ stripped url
      /\ PyExt.len title <= 256 /\ PyExt.len description <= 4096
  | _ => False
  end.

(** Whether [raise_for_status] passed. *)
Definition request_ok (e : Event) : bool :=
  match e with
  | PostSlack _ _ ok | PostDiscord _ _ _ _ ok => ok
  | _ => true
  end.

(** From [w] to [w'] only well-formed requests are made, and the count of
    requests keeps step with them. *)
Definition well_formed_requests (w w' : World) : Prop :=
  exists d, requests w' = requests w ++ d
            /\ Forall well_formed_request d
            /\ posts w' = posts w + length d.

Definition discord_url_of (env : Env) : string :=
  Py.strip (default EmptyString (DISCORD_WEBHOOK_URL env)).

(** The key under which [fetch_jgrants] files a row. *)
Definition row_key (row : JGrants.Row) : string :=
  JGrants.safe_text_of (JGrants.get (JGrants.r_id row)).

(** Two answers of the grants API that share the row [S-2]. *)
Definition grant_row (sid : string) (limit : Z) (end_ : option string) : JGrants.Row :=
  JGrants.mkRow (Some (JGrants.JString sid)) (Some (JGrants.JString ("補助金 " +:+ sid)))
    None (Some (JGrants.JString "全国")) (Some (JGrants.JInt limit)) None
    (option_map JGrants.JString end_).

Definition grants_api (kw : string) : JGrants.Response :=
  if String.eqb kw "IT" then
    Ok [grant_row "S-1" 5000000 (Some "2026-03-31T17:00:00"); grant_row "S-2" 100000 None]
  else if String.eqb kw "DX" then
    Ok [grant_row "S-2" 100000 None; grant_row "S-3" 3000000 (Some "2026-02-28T17:00:00")]
  else Raise "500 Server Error".



(** The fetch of the target raises. *)
Definition fetch_fails (env : Env) (t : Target) : Prop :=
  exists msg, fetch_outcome env t = Some (Raise msg).

(** ** The primitives on test vectors *)

Example sha1_empty : sha1 EmptyString = "da39a3ee5e6b4b0d3255bfef95601890afd80709".
Proof. vm_compute. reflexivity. Qed.

Example sha1_abc : sha1 "abc" = "a9993e364706816aba3e25717850c26c9cd0d89d".
Proof. vm_compute. reflexivity. Qed.

Example sha1_fox :
  sha1 "The quick brown fox jumps over the lazy dog"
  = "2fd4e1c67a2d28fced849ee1bb76e7391b93eb12".
Proof. vm_compute. reflexivity. Qed.

Example sha1_two_blocks :
  sha1 "abcdbcdecdefdefgefghfghighijhijkijkljklmklmnlmnomnopnopq"
  = "84983e441c3bd26ebaae4aa1f95129e5e54670f1".
Proof. vm_compute. reflexivity. Qed.

Example safe_text_ex :
  safe_text (Some (Py.bytes [32; 9; 97; 13; 10; 98; 227; 128; 128; 32])) = Py.bytes [97; 32; 32; 98].
Proof. vm_compute. reflexivity. Qed.

Example str_of_nat_ex : Py.str_of_nat 2 = "2" /\ Py.str_of_nat 0 = "0" /\ Py.str_of_nat 297 = "297".
Proof. vm_compute. auto. Qed.

(** ** Fuel

    The loops of the primitives run on fuel; it is never exhausted. *)

Lemma drop_string_length n : forall s,
  String.length (Py.drop_string n s) = String.length s - n.
Proof.
  induction n as [|n IH]; intros [|c s]; simpl; try lia. apply IH.
Qed.

Lemma starts_with_length p : forall s,
  Py.starts_with p s = true -> String.length p <= String.length s.
Proof.
  induction p as [|a p IH]; intros [|b s]; simpl; try lia; try discriminate.
  destruct (Ascii.eqb a b); [|discriminate]. intros H. apply IH in H. lia.
Qed.

Lemma lstrip1_shorter ws s s' :
  Forall (fun w => w <> EmptyString) ws ->
  Py.lstrip1 ws s = Some s' -> String.length s' < String.length s.
Proof.
  induction 1 as [|w ws Hw Hws IH]; simpl; [discriminate|].
  destruct (Py.starts_with w s) eqn:Hstart; [|exact IH].
  intros H. simplify_eq. rewrite drop_string_length.
  apply starts_with_length in Hstart.
  destruct w; [contradiction|]. simpl in *. lia.
Qed.

(** The fuel of [lstrip_with] is never exhausted: what it returns starts
    with no character of [ws]. *)
Lemma lstrip_fuel_done ws :
  Forall (fun w => w <> EmptyString) ws ->
  forall fuel s, String.length s <= fuel ->
                 Py.lstrip1 ws (Py.lstrip_fuel ws fuel s) = None.
Proof.
  intros Hws. induction fuel as [|fuel IH]; intros s Hlen; simpl.
  - destruct s; [|simpl in Hlen; lia].
    clear Hlen. induction Hws as [|w ws Hw Hws' IHws]; simpl; [reflexivity|].
    destruct w; [contradiction|]. exact IHws.
  - destruct (Py.lstrip1 ws s) as [s'|] eqn:Hs; [|exact Hs].
    apply IH. apply (lstrip1_shorter ws s s' Hws) in Hs. lia.
Qed.

Lemma whitespace_nonempty : Forall (fun w => w <> EmptyString) Py.whitespace.
Proof. unfold Py.whitespace. simpl. repeat constructor; discriminate. Qed.

Lemma lstrip_done s : Py.lstrip1 Py.whitespace (Py.lstrip s) = None.
Proof. apply lstrip_fuel_done; [apply whitespace_nonempty | lia]. Qed.

(** More fuel than the number itself changes nothing: [str_of_nat] writes
    all the digits. *)
Lemma str_of_nat_fuel_enough : forall fuel1 fuel2 n acc,
  n < fuel1 -> n < fuel2 ->
  Py.str_of_nat_fuel fuel1 n acc = Py.str_of_nat_fuel fuel2 n acc.
Proof.
  induction fuel1 as [|fuel1 IH]; intros [|fuel2] n acc H1 H2; try lia.
  cbn [Py.str_of_nat_fuel].
  destruct (n <? 10)%nat eqn:Hn; [reflexivity|].
  apply Nat.ltb_ge in Hn.
  assert (n / 10 < n) by (apply Nat.div_lt; lia).
  apply IH; lia.
Qed.

Lemma blocks_fuel_enough : forall fuel1 fuel2 h bs,
  length bs <= fuel1 -> length bs <= fuel2 ->
  Sha1.blocks fuel1 h bs = Sha1.blocks fuel2 h bs.
Proof.
  induction fuel1 as [|fuel1 IH]; intros [|fuel2] h [|b bs] H1 H2;
    simpl in *; try lia; try reflexivity.
  apply IH; rewrite length_skipn; simpl; lia.
Qed.

(** ** The scenarios of the specification *)

(** Scenario A: nothing seen, three entries fetched: all three are
    notified and the saved list is their ids in fetch order. *)
Example scenario_A :
  notifications
    (trace (process_target (sample_env 3 posts_ok insertion_order)
              (mkConfig [blog] true true) blog empty_world).2)
  = [Notify (item_headline "Blog" "C")
       (item_body "🟦 チェック対象に変化あり。念のため確認推奨。" (rss_item (numbered_entry 0)))
       "https://example.org/0";
     Notify (item_headline "Blog" "C")
       (item_body "🟦 チェック対象に変化あり。念のため確認推奨。" (rss_item (numbered_entry 1)))
       "https://example.org/1";
     Notify (item_headline "Blog" "C")
       (item_body "🟦 チェック対象に変化あり。念のため確認推奨。" (rss_item (numbered_entry 2)))
       "https://example.org/2"]
  /\ files (process_target (sample_env 3 posts_ok insertion_order)
              (mkConfig [blog] true true) blog empty_world).2
       !! ".state/blog.json"
     = Some (Json (mkState (Some ["tag:example.org,0"; "tag:example.org,1";
                                  "tag:example.org,2"])
                     (Some "2026-01-01 09:00:00 JST"))).
Proof. split; vm_compute; reflexivity. Qed.

(** Scenario C: a critical keyword gives level S whatever the kind. *)
Example scenario_C :
  Forall (fun target =>
            exists c,
              importance_level (sample_env 0 posts_ok insertion_order)
                (mkItem "1" "Critical: remote code execution found" EmptyString EmptyString
                   EmptyString "RSS") target
              = Ok ("S", c))
         [blog; laws; podcast;
          mkTarget "g" "jgrants" None None None [] ["IT"] None None None].
Proof. repeat constructor; eexists; vm_compute; reflexivity. Qed.

(** Scenario D: a law-update target whose keyword occurs in the text
    raises the default level to A. *)
Example scenario_D :
  exists c,
    importance_level (sample_env 0 posts_ok insertion_order)
      (mkItem "1" "Labor regulation update" EmptyString EmptyString EmptyString "e-Gov")
      (mkTarget "laws" "egov_law_updates" None None None ["labor"] [] None None None)
    = Ok ("A", c).
Proof. eexists. vm_compute. reflexivity. Qed.

(** ** Running computations *)

Section Frames.

Variable P : Event -> bool.

Lemma emits_only_ret {A} (a : A) : emits_only P (mret a).
Proof. intros w. split; [reflexivity|]. exists []. by rewrite app_nil_r. Qed.

Lemma emits_only_raise {A} msg : emits_only P (@raise A msg).
Proof. intros w. split; [reflexivity|]. exists []. by rewrite app_nil_r. Qed.

Lemma emits_only_lift {A} (r : Result A) : emits_only P (lift r).
Proof. intros w. split; [reflexivity|]. exists []. by rewrite app_nil_r. Qed.

Lemma emits_only_now env : emits_only P (now_jst_str env).
Proof. intros w. split; [reflexivity|]. exists []. by rewrite app_nil_r. Qed.

Lemma emits_only_emit e : P e = true -> emits_only P (emit e).
Proof.
  intros He w. split; [reflexivity|]. exists [e]. split; [reflexivity|].
  simpl. by rewrite He.
Qed.

Lemma emits_only_bind {A B} (c : M A) (f : A -> M B) :
  emits_only P c -> (forall a, emits_only P (f a)) -> emits_only P (c ≫= f).
Proof.
  intros Hc Hf w. unfold mbind, M_bind.
  destruct (Hc w) as [Hfiles [d [Htr Hd]]].
  destruct (c w) as [[a|msg] w1]; simpl in *.
  - destruct (Hf a w1) as [Hfiles' [d' [Htr' Hd']]].
    split; [congruence|]. exists (d ++ d').
    rewrite Htr', Htr, <- app_assoc. split; [reflexivity|].
    rewrite forallb_app, Hd, Hd'. reflexivity.
  - split; [assumption|]. by exists d.
Qed.

Lemma emits_only_try {A} (c : M A) (h : string -> M A) :
  emits_only P c -> (forall msg, emits_only P (h msg)) -> emits_only P (try_except c h).
Proof.
  intros Hc Hh w. unfold try_except.
  destruct (Hc w) as [Hfiles [d [Htr Hd]]].
  destruct (c w) as [[a|msg] w1]; simpl in *.
  - split; [assumption|]. by exists d.
  - destruct (Hh msg w1) as [Hfiles' [d' [Htr' Hd']]].
    split; [congruence|]. exists (d ++ d').
    rewrite Htr', Htr, <- app_assoc. split; [reflexivity|].
    rewrite forallb_app, Hd, Hd'. reflexivity.
Qed.

Lemma emits_only_for_each {A} (body : A -> M unit) (l : list A) :
  (forall x, emits_only P (body x)) -> emits_only P (for_each body l).
Proof.
  intros Hbody. induction l as [|x l IH]; simpl.
  - apply emits_only_ret.
  - apply emits_only_bind; [apply Hbody | intros _; exact IH].
Qed.

Lemma emits_only_post_slack env url text :
  (forall ok, P (PostSlack url text ok) = true) -> emits_only P (post_slack env url text).
Proof.
  intros HP w. split; [reflexivity|]. eexists [_]. split; [reflexivity|].
  simpl. by rewrite HP.
Qed.

Lemma emits_only_post_discord env url title description link :
  (forall t d ok, P (PostDiscord url t d link ok) = true) ->
  emits_only P (post_discord env url title description link).
Proof.
  intros HP w. split; [reflexivity|]. eexists [_]. split; [reflexivity|].
  simpl. by rewrite HP.
Qed.

End Frames.

Lemma notify_all_not_saved env cfg headline body url :
  emits_only not_saved (notify_all env cfg headline body url).
Proof.
  unfold notify_all.
  apply emits_only_bind; [by apply emits_only_emit|]. intros _.
  apply emits_only_bind.
  - destruct (_ && _); [by apply emits_only_post_slack | apply emits_only_ret].
  - intros _. destruct (_ && _); [by apply emits_only_post_discord | apply emits_only_ret].
Qed.

Lemma notify_item_not_saved env cfg target it :
  emits_only not_saved (notify_item env cfg target it).
Proof.
  unfold notify_item. apply emits_only_bind; [apply emits_only_lift|].
  intros [lv c]. apply notify_all_not_saved.
Qed.

Lemma on_error_not_saved env cfg target e :
  emits_only not_saved (on_error env cfg target e).
Proof.
  unfold on_error. apply emits_only_bind; [apply emits_only_now|]. intros now.
  apply emits_only_bind; [apply notify_all_not_saved|]. intros _.
  by apply emits_only_emit.
Qed.

(** ** The classifier *)

(** The outcome of a keyword test is all the rules look at: name it, then
    follow both branches of every test. *)
Ltac name_tests :=
  repeat match goal with
         | |- context [Py.any_in ?ks ?t] => generalize (Py.any_in ks t); intro
         | |- context [Py.contains ?k ?t] => generalize (Py.contains k t); intro
         | |- context [existsb ?f ?l] => generalize (existsb f l); intro
         | |- context [t_kind ?t] => generalize (t_kind t); intro
         end.

Ltac split_ifs :=
  name_tests;
  repeat match goal with
         | |- context [if ?b then _ else _] => destruct b; simpl
         end.

Lemma final_score_level env item target :
  In (level (final_score env item target)) levels.
Proof.
  unfold final_score, score_grant_limit, score_grant_terms, score_law, score_security,
    score_default.
  split_ifs; simpl; tauto.
Qed.

Lemma importance_level_ok env item target :
  exists lv c, importance_level env item target = Ok (lv, c)
               /\ lv = level (final_score env item target) /\ In lv levels.
Proof.
  pose proof (final_score_level env item target) as H.
  unfold importance_level. simpl in H.
  decompose [or] H; try contradiction;
    match goal with Heq : _ = level _ |- _ => rewrite <- Heq end; simpl;
    eexists _, _; (split; [reflexivity|]); simpl; tauto.
Qed.

(** C3. Along rules 1 to 5 of [importance_level] the running level never
    decreases in the order S > A > B > C, and the last of these levels is
    the one returned; the law rule and the two grant rules never lower any
    level they are given; and [importance_level] returns, with a level
    among S, A, B and C. *)
Theorem severity_never_decreases env item target :
  nondecreasing (score_steps env item target)
  /\ last (score_steps env item target) = Some (final_score env item target)
  /\ Forall (fun lv => forall text c,
               level_le lv (level (score_law env target text (mkScore lv c)))
               /\ level_le lv (level (score_grant_terms target text (mkScore lv c)))
               /\ level_le lv (level (score_grant_limit target item (mkScore lv c))))
            levels
  /\ exists lv c, importance_level env item target = Ok (lv, c)
                  /\ lv = level (final_score env item target)
                  /\ In lv levels.
Proof.
  split; [|split; [reflexivity|split]].
  - unfold score_steps, score_grant_limit, score_grant_terms, score_law, score_security,
      score_default, nondecreasing.
    split_ifs; unfold level_le; simpl; lia.
  - unfold levels. repeat constructor;
      unfold score_law, score_grant_terms, score_grant_limit;
      split_ifs; unfold level_le; simpl; lia.
  - apply importance_level_ok.
Qed.

(** ** Targets without a fetcher *)

(** C10. A target whose kind is none of rss, egov_law_updates and jgrants
    only prints the skip line: no notification and no error notification,
    the state files as they were, and the loop goes on with the targets
    that follow. *)
Theorem unknown_kind_skipped env cfg target rest w :
  t_kind target <> "rss" ->
  t_kind target <> "egov_law_updates" ->
  t_kind target <> "jgrants" ->
  process_target env cfg target w = (Ok tt, printed w (skip_line target))
  /\ files (printed w (skip_line target)) = files w
  /\ notifications (trace (printed w (skip_line target))) = notifications (trace w)
  /\ for_each (process_target env cfg) (target :: rest) w
     = for_each (process_target env cfg) rest (printed w (skip_line target)).
Proof.
  intros H1 H2 H3.
  apply String.eqb_neq in H1, H2, H3.
  assert (Hrun : process_target env cfg target w = (Ok tt, printed w (skip_line target))).
  { unfold process_target, try_except, try_body. rewrite H1, H2, H3. reflexivity. }
  split; [exact Hrun|]. split; [reflexivity|]. split.
  - unfold notifications, printed. simpl. rewrite List.filter_app. simpl.
    by rewrite app_nil_r.
  - simpl. unfold mbind, M_bind. rewrite Hrun. reflexivity.
Qed.

Lemma unknown_kind_skipped_witness :
  t_kind podcast <> "rss"
  /\ t_kind podcast <> "egov_law_updates"
  /\ t_kind podcast <> "jgrants"
  /\ process_target (sample_env 2 slack_down insertion_order)
       (mkConfig [podcast; blog] true true) podcast empty_world
     = (Ok tt, mkWorld ∅ 0 0 [Printed "  - cast: unknown kind=podcast (skip)"]).
Proof.
  assert (H1 : t_kind podcast <> "rss") by discriminate.
  assert (H2 : t_kind podcast <> "egov_law_updates") by discriminate.
  assert (H3 : t_kind podcast <> "jgrants") by discriminate.
  split; [exact H1|]. split; [exact H2|]. split; [exact H3|].
  exact (proj1 (unknown_kind_skipped (sample_env 2 slack_down insertion_order)
                  (mkConfig [podcast; blog] true true) podcast [blog] empty_world
                  H1 H2 H3)).
Defined.

(** ** The seen list *)

Lemma mem_In x l : mem x l = true <-> In x l.
Proof.
  unfold mem. rewrite existsb_exists. split.
  - intros [y [Hy Heq]]. apply String.eqb_eq in Heq. by subst.
  - intros H. exists x. split; [assumption | apply String.eqb_refl].
Qed.

Lemma mem_false x l : mem x l = false <-> ~ In x l.
Proof.
  rewrite <- mem_In. destruct (mem x l); split; congruence.
Qed.

Lemma dedup_fold_extends l : forall acc,
  exists t, fold_left dedup_step l acc = acc ++ t.
Proof.
  induction l as [|x l IH]; intros acc; simpl.
  - exists []. by rewrite app_nil_r.
  - unfold dedup_step at 2. destruct (mem x acc).
    + apply IH.
    + destruct (IH (acc ++ [x])) as [t Ht]. exists (x :: t).
      by rewrite Ht, <- app_assoc.
Qed.

Lemma dedup_fold_In l : forall acc x,
  In x (fold_left dedup_step l acc) <-> In x acc \/ In x l.
Proof.
  induction l as [|y l IH]; intros acc x; simpl.
  - tauto.
  - rewrite IH. unfold dedup_step. destruct (mem y acc) eqn:Hy.
    + apply mem_In in Hy. split; [tauto|].
      intros [H|[H|H]]; subst; tauto.
    + rewrite in_app_iff. simpl. tauto.
Qed.

Lemma dedup_fold_NoDup l : forall acc,
  NoDup acc -> NoDup (fold_left dedup_step l acc).
Proof.
  induction l as [|y l IH]; intros acc Hacc; simpl; [assumption|].
  apply IH. unfold dedup_step. destruct (mem y acc) eqn:Hy; [assumption|].
  apply mem_false in Hy. apply NoDup_app. split; [assumption|].
  split; [| apply NoDup_singleton].
  intros z Hz Hz'. apply list_elem_of_In in Hz. apply list_elem_of_In in Hz'.
  simpl in Hz'. destruct Hz' as [->|[]]. contradiction.
Qed.

Lemma dedup_loop_In l x : In x (dedup_loop l) <-> In x l.
Proof. unfold dedup_loop. rewrite dedup_fold_In. simpl. tauto. Qed.

Lemma dedup_loop_NoDup l : NoDup (dedup_loop l).
Proof. apply dedup_fold_NoDup. constructor. Qed.

(** The ids of the fetched items come first in the merged list, so they
    are what fills the front of the saved list. *)
Lemma dedup_loop_app a b :
  exists t, dedup_loop (a ++ b) = dedup_loop a ++ t.
Proof.
  unfold dedup_loop. rewrite fold_left_app. apply dedup_fold_extends.
Qed.

Lemma updated_ids_length env items seen : length (updated_ids env items seen) <= 300.
Proof. unfold updated_ids. rewrite length_firstn. lia. Qed.

Lemma updated_ids_NoDup env items seen : NoDup (updated_ids env items seen).
Proof.
  unfold updated_ids.
  pose proof (dedup_loop_NoDup (map it_id items ++ set_iter env seen)) as H.
  rewrite <- (firstn_skipn 300) in H. by apply NoDup_app in H as [H _].
Qed.




(** ** One target *)

Lemma try_body_fetched env cfg target items w :
  fetch_outcome env target = Some (Ok items) ->
  try_body env cfg target w = handle_items env cfg target items w.
Proof.
  unfold fetch_outcome, try_body, fetch_rss, fetch_egov_updates, fetch_jgrants,
    target_url, lift, raise, mbind, M_bind, mret, M_ret.
  destruct (String.eqb (t_kind target) "rss").
  - destruct (t_url target) as [url|]; [|discriminate].
    destruct (feedparser_parse env url); intros; by simplify_eq.
  - destruct (String.eqb (t_kind target) "egov_law_updates").
    + intros; simplify_eq. by rewrite H.
    + destruct (String.eqb (t_kind target) "jgrants"); [|discriminate].
      intros; simplify_eq. by rewrite H.
Qed.

Lemma try_body_fetch_raises env cfg target msg w :
  fetch_outcome env target = Some (Raise msg) ->
  try_body env cfg target w = (Raise msg, w).
Proof.
  unfold fetch_outcome, try_body, fetch_rss, fetch_egov_updates, fetch_jgrants,
    target_url, lift, raise, mbind, M_bind, mret, M_ret.
  destruct (String.eqb (t_kind target) "rss").
  - destruct (t_url target) as [url|]; [|intros; by simplify_eq].
    destruct (feedparser_parse env url); intros; by simplify_eq.
  - destruct (String.eqb (t_kind target) "egov_law_updates").
    + intros; simplify_eq. by rewrite H.
    + destruct (String.eqb (t_kind target) "jgrants"); [|discriminate].
      intros; simplify_eq. by rewrite H.
Qed.

Lemma load_state_loadable target w :
  loadable target w -> load_state (t_id target) w = (Ok (loaded_state target w), w).
Proof.
  unfold loadable, load_state, loaded_state. intros H.
  destruct (files w !! state_path (t_id target)) as [[st|err]|] eqn:Hf;
    [reflexivity | by destruct (H err) | reflexivity].
Qed.

Lemma handle_items_run env cfg target items w :
  loadable target w ->
  handle_items env cfg target items w
  = match new_items target items w with
    | [] => (Ok tt, printed w (no_changes_line target))
    | _ :: _ =>
        match open_w env (state_path (t_id target)) with
        | Ok _ => dispatch env cfg target (new_items target items w)
                    (saved_world env target items w)
        | Raise msg => (Raise msg, clock_read w)
        end
    end.
Proof.
  intros Hload. unfold handle_items, new_items, mbind, M_bind.
  rewrite (load_state_loadable _ _ Hload).
  destruct (new_items_of items (stored_ids (loaded_state target w))); [reflexivity|].
  unfold update_state, now_jst_str, save_state, mbind, M_bind. cbn [files ticks posts trace].
  by destruct (open_w env (state_path (t_id target))) as [[]|msg].
Qed.

(** A write that fails ends the [try] block before anything is sent. *)
Lemma process_target_write_fails env cfg target items w msg :
  fetch_outcome env target = Some (Ok items) ->
  loadable target w ->
  new_items target items w <> [] ->
  open_w env (state_path (t_id target)) = Raise msg ->
  process_target env cfg target w = on_error env cfg target msg (clock_read w).
Proof.
  intros Hfetch Hload Hnew Hopen. unfold process_target, try_except.
  rewrite (try_body_fetched _ _ _ _ _ Hfetch), (handle_items_run _ _ _ _ _ Hload), Hopen.
  by destruct (new_items target items w).
Qed.

Lemma dispatch_not_saved env cfg target new :
  emits_only not_saved (dispatch env cfg target new).
Proof.
  unfold dispatch.
  apply emits_only_bind; [apply emits_only_for_each, notify_item_not_saved|]. intros _.
  apply emits_only_bind.
  - destruct (_ <? _)%nat; [apply notify_all_not_saved | apply emits_only_ret].
  - intros _. by apply emits_only_emit.
Qed.

(** What one iteration does for a target whose fetch returned [items] and
    whose state file can be read: nothing but a line when no item is new;
    otherwise the state is saved first, and whatever follows -- item
    notifications, an error notification -- leaves the files alone. *)
Lemma process_target_fetched env cfg target items w :
  fetch_outcome env target = Some (Ok items) ->
  loadable target w ->
  (new_items target items w = []
   /\ process_target env cfg target w = (Ok tt, printed w (no_changes_line target)))
  \/ (new_items target items w <> []
      /\ writable env target
      /\ files (process_target env cfg target w).2 = files (saved_world env target items w)
      /\ exists d, trace (process_target env cfg target w).2
                   = trace (saved_world env target items w) ++ d
                   /\ forallb not_saved d = true)
  \/ (new_items target items w <> []
      /\ exists msg, open_w env (state_path (t_id target)) = Raise msg
                     /\ process_target env cfg target w
                        = on_error env cfg target msg (clock_read w)).
Proof.
  intros Hfetch Hload.
  destruct (new_items target items w) as [|it new] eqn:Hnew.
  - left. split; [reflexivity|]. unfold process_target, try_except.
    by rewrite (try_body_fetched _ _ _ _ _ Hfetch), (handle_items_run _ _ _ _ _ Hload), Hnew.
  - right. destruct (open_w env (state_path (t_id target))) as [[]|msg] eqn:Hopen.
    + left. split; [discriminate|]. split; [exact Hopen|].
      pose proof (emits_only_try not_saved (dispatch env cfg target (it :: new))
                    (on_error env cfg target)
                    (dispatch_not_saved env cfg target (it :: new))
                    (on_error_not_saved env cfg target)
                    (saved_world env target items w)) as [Hfiles Htrace].
      unfold process_target, try_except in *.
      rewrite (try_body_fetched _ _ _ _ _ Hfetch), (handle_items_run _ _ _ _ _ Hload), Hnew,
        Hopen.
      split; assumption.
    + right. split; [discriminate|]. exists msg. split; [reflexivity|].
      apply (process_target_write_fails env cfg target items w msg Hfetch Hload);
        [by rewrite Hnew | exact Hopen].
Qed.

Lemma notifications_printed w line :
  notifications (trace (printed w line)) = notifications (trace w).
Proof.
  unfold notifications, printed. simpl. rewrite List.filter_app. simpl.
  by rewrite app_nil_r.
Qed.

Lemma notifications_app tr tr' :
  notifications (tr ++ tr') = notifications tr ++ notifications tr'.
Proof. apply List.filter_app. Qed.

Lemma notifications_posts ps : forallb is_post ps = true -> notifications ps = [].
Proof.
  induction ps as [|e ps IH]; simpl; [reflexivity|].
  intros H. apply andb_true_iff in H as [He Hps].
  destruct e; try discriminate; simpl; by apply IH.
Qed.

(** ** Sending *)

(** A call of [notify_all] is recorded once, followed by the requests it
    made; it touches neither the files nor the clock. *)
Lemma notify_all_trace env cfg headline body url w :
  exists ps, trace (notify_all env cfg headline body url w).2
             = trace w ++ Notify headline body url :: ps
             /\ forallb is_post ps = true
             /\ files (notify_all env cfg headline body url w).2 = files w
             /\ ticks (notify_all env cfg headline body url w).2 = ticks w.
Proof.
  unfold notify_all, emit, post_slack, post_discord, mbind, M_bind, mret, M_ret.
  destruct (slack_enabled cfg && _); destruct (discord_enabled cfg && _); simpl;
    repeat match goal with
           | |- context [http_post ?e ?n ?x] => destruct (http_post e n x) as [[]|?]; simpl
           end;
    rewrite <- ?app_assoc; simpl; eexists; (split; [reflexivity|]); by repeat split.
Qed.


Lemma notify_all_ok env cfg headline body url w :
  posts_succeed env -> (notify_all env cfg headline body url w).1 = Ok tt.
Proof.
  intros Hok.
  unfold notify_all, emit, post_slack, post_discord, mbind, M_bind, mret, M_ret.
  destruct (slack_enabled cfg && _); destruct (discord_enabled cfg && _); simpl;
    rewrite ?Hok; simpl; rewrite ?Hok; reflexivity.
Qed.



(** ** Idempotence *)





(** Nor does it hold when the state cannot be written: for a target
    whose id has a path separator in it and a [.state] without
    subdirectories, [open] raises in every run, nothing is saved, and each
    run sends one error notification for the same two items. *)
Lemma failed_write_notifies_again :
  fetch_outcome (sample_env 2 posts_ok insertion_order) nested = Some (Ok (sample_items 2))
  /\ loadable nested empty_world
  /\ open_w (sample_env 2 posts_ok insertion_order) (state_path (t_id nested))
     = Raise "[Errno 2] No such file or directory: '.state/a/b.json'"
  /\ files (process_target (sample_env 2 posts_ok insertion_order)
              (mkConfig [nested] true true) nested empty_world).2 = ∅
  /\ map is_notify
       (trace (process_target (sample_env 2 posts_ok insertion_order)
                 (mkConfig [nested] false false) nested
                 (process_target (sample_env 2 posts_ok insertion_order)
                    (mkConfig [nested] false false) nested empty_world).2).2)
     = [true; false; true; false]
  /\ notifications
       (trace (process_target (sample_env 2 posts_ok insertion_order)
                 (mkConfig [nested] false false) nested empty_world).2)
     = [error_notification nested "2026-01-01 09:00:01 JST"
          "[Errno 2] No such file or directory: '.state/a/b.json'"].
Proof.
  split; [vm_compute; reflexivity|]. split; [intros err; vm_compute; discriminate|].
  repeat split; vm_compute; reflexivity.
Qed.

(** ** The saved list *)

Lemma insertion_order_ok n post : set_iter_ok (sample_env n post insertion_order).
Proof.
  intros l. simpl. unfold insertion_order. split.
  - apply dedup_loop_NoDup.
  - intros x. apply dedup_loop_In.
Qed.

Lemma reverse_order_ok n post : set_iter_ok (sample_env n post reverse_order).
Proof.
  intros l. simpl. unfold reverse_order. split.
  - apply NoDup_ListNoDup, List.NoDup_rev, NoDup_ListNoDup, dedup_loop_NoDup.
  - intros x. rewrite <- in_rev. apply dedup_loop_In.
Qed.

(** Whatever the order of the set, every saved list has at most 300
    entries, none of them twice, and starts with the ids just fetched. *)
Lemma saved_ids_shape env items seen :
  length (updated_ids env items seen) <= 300
  /\ NoDup (updated_ids env items seen)
  /\ exists t, updated_ids env items seen
               = firstn 300 (dedup_loop (map it_id items) ++ t).
Proof.
  split; [apply updated_ids_length|]. split; [apply updated_ids_NoDup|].
  unfold updated_ids.
  destruct (dedup_loop_app (map it_id items) (set_iter env seen)) as [t Ht].
  exists t. by rewrite Ht.
Qed.

(** When the set happens to iterate in the stored order, the saved list
    is the one the specification describes. *)
Lemma updated_ids_in_stored_order env items seen :
  set_iter env seen = seen -> updated_ids env items seen = seen_ids_by_spec items seen.
Proof. intros H. unfold updated_ids, seen_ids_by_spec. by rewrite H. Qed.

(** Scenario B: from [seen_ids = [X]] and a fetch of [X, Y] the saved list
    is [[X, Y]]. *)
Lemma scenario_B env ix iy :
  set_iter_ok env -> it_id ix <> it_id iy ->
  new_items_of [ix; iy] [it_id ix] = [iy]
  /\ updated_ids env [ix; iy] [it_id ix] = [it_id ix; it_id iy].
Proof.
  intros Hset Hne. split.
  - unfold new_items_of, mem. simpl. rewrite String.eqb_refl. simpl.
    apply String.eqb_neq in Hne. rewrite String.eqb_sym in Hne. by rewrite Hne.
  - destruct (Hset [it_id ix]) as [Hnd Hin].
    assert (Hone : set_iter env [it_id ix] = [it_id ix]).
    { destruct (set_iter env [it_id ix]) as [|a [|b l]].
      - destruct (proj2 (Hin (it_id ix))). by left.
      - f_equal. destruct (proj1 (Hin a)) as [H|[]]; [by left | by symmetry].
      - exfalso.
        assert (Ha : a = it_id ix).
        { destruct (proj1 (Hin a)) as [H|[]]; [by left | by symmetry]. }
        assert (Hb : b = it_id ix).
        { destruct (proj1 (Hin b)) as [H|[]]; [right; by left | by symmetry]. }
        subst. apply NoDup_cons in Hnd as [Hnotin _]. apply Hnotin. by left. }
    unfold updated_ids. rewrite Hone. unfold dedup_loop, dedup_step, mem. simpl.
    apply String.eqb_neq in Hne. rewrite String.eqb_sym in Hne.
    rewrite Hne. simpl. rewrite String.eqb_refl. reflexivity.
Qed.

(** C2, evaluated where the code departs from it, in a process whose set
    iterates in the reverse of the stored order.  From a state file holding
    [["a", "b"]] and a fetch of one new entry the code saves
    [["tag:example.org,0", "b", "a"]], where the specification keeps the
    stored order, [[..., "a", "b"]].  From a full list of 300 ids the same
    fetch makes the code drop ["old-0"], the id seen most recently, where
    the specification drops ["old-299"], the oldest. *)
Theorem stored_order_not_kept :
  set_iter_ok (sample_env 1 posts_ok reverse_order)
  /\ fetch_outcome (sample_env 1 posts_ok reverse_order) blog = Some (Ok (sample_items 1))
  /\ files (process_target (sample_env 1 posts_ok reverse_order) (mkConfig [blog] false false)
              blog (world_with blog (Json (mkState (Some ["a"; "b"]) None)))).2
       !! state_path (t_id blog)
     = Some (Json (mkState (Some ["tag:example.org,0"; "b"; "a"])
                     (Some "2026-01-01 09:00:00 JST")))
  /\ seen_ids_by_spec (sample_items 1) ["a"; "b"] = ["tag:example.org,0"; "a"; "b"]
  /\ mem "old-0" (updated_ids (sample_env 1 posts_ok reverse_order) (sample_items 1) old_ids)
     = false
  /\ mem "old-299" (updated_ids (sample_env 1 posts_ok reverse_order) (sample_items 1) old_ids)
     = true
  /\ mem "old-0" (seen_ids_by_spec (sample_items 1) old_ids) = true
  /\ mem "old-299" (seen_ids_by_spec (sample_items 1) old_ids) = false.
Proof.
  split; [apply reverse_order_ok|].
  repeat split; vm_compute; reflexivity.
Qed.

(** ** Batching *)






(** ** Order of saving and notifying *)


Lemma notify_item_run env cfg target it w :
  exists h b,
    item_notification env target it = Some (Notify h b (safe_text_str (it_url it)))
    /\ notify_item env cfg target it w = notify_all env cfg h b (safe_text_str (it_url it)) w.
Proof.
  destruct (importance_level_ok env it target) as [lv [c [Hlv _]]].
  exists (item_headline (target_title target) lv), (item_body c it).
  unfold item_notification, notify_item, lift, mbind, M_bind. by rewrite Hlv.
Qed.

Lemma try_dispatch_cons env cfg target it rest (h : string -> M unit) w :
  try_except (dispatch env cfg target (it :: rest)) h w
  = match notify_item env cfg target it w with
    | (Ok _, w1) => try_except (dispatch_after_first env cfg target (it :: rest)) h w1
    | (Raise msg, w1) => h msg w1
    end.
Proof.
  unfold try_except, dispatch, dispatch_after_first.
  change (firstn 3 (it :: rest)) with (it :: firstn 2 rest).
  change (tl (it :: rest)) with rest.
  cbn [for_each]. unfold mbind, M_bind.
  destruct (notify_item env cfg target it w) as [[[]|msg] w1]; reflexivity.
Qed.


(** The [except] block: one error notification, stamped with the next
    reading of the clock; the files are not touched; it returns unless the
    delivery itself raises. *)
Lemma on_error_run env cfg target e w :
  files (on_error env cfg target e w).2 = files w
  /\ (posts_succeed env -> (on_error env cfg target e w).1 = Ok tt)
  /\ exists d, trace (on_error env cfg target e w).2
               = trace w ++ error_notification target (clock env (ticks w)) e :: d
               /\ notifications d = [].
Proof.
  split; [apply on_error_not_saved|].
  unfold on_error, now_jst_str, error_notification. unfold mbind at 1 3, M_bind at 1 3.
  set (w0 := mkWorld (files w) (S (ticks w)) (posts w) (trace w)).
  set (h := error_headline (target_title target)).
  set (b := error_body (clock env (ticks w)) (t_kind target) (safe_text_str e)).
  set (u := default EmptyString (t_url target)).
  destruct (notify_all_trace env cfg h b u w0) as [ps [Htr [Hps _]]].
  split.
  - intros Hok. pose proof (notify_all_ok env cfg h b u w0 Hok) as Hres.
    unfold mbind, M_bind.
    destruct (notify_all env cfg h b u w0) as [r w1]. simpl in Hres. by subst r.
  - unfold mbind, M_bind.
    destruct (notify_all env cfg h b u w0) as [[[]|msg] w1]; cbn [snd] in Htr.
    + exists (ps ++ [Printed ("  - " +:+ t_id target +:+ ": ERROR " +:+ safe_text_str e)]).
      simpl. rewrite Htr. simpl. rewrite <- app_assoc. split; [reflexivity|].
      rewrite notifications_app, (notifications_posts ps Hps). reflexivity.
    + exists ps. simpl. split; [exact Htr|]. by apply notifications_posts.
Qed.




(** ** Errors *)

Lemma starts_with_app x b : Py.starts_with x (x +:+ b) = true.
Proof.
  induction x as [|c x IH]; simpl; [reflexivity|].
  by rewrite Ascii.eqb_refl.
Qed.

Lemma contains_app_r x a b : Py.contains x b = true -> Py.contains x (a +:+ b) = true.
Proof.
  intros H. induction a as [|c a IH]; simpl; [assumption|].
  rewrite IH. by destruct (Py.starts_with x (String c (a +:+ b))).
Qed.

Lemma contains_here x b : Py.contains x (x +:+ b) = true.
Proof.
  destruct x as [|c x]; [by destruct b|].
  change (Py.contains (String c x) (String c x +:+ b))
    with (if Py.starts_with (String c x) (String c x +:+ b) then true
          else Py.contains (String c x) (x +:+ b)).
  by rewrite starts_with_app.
Qed.

(** The body of the error notification shows the time, the kind of the
    target and the text of the exception. *)
Lemma error_body_contains now kind msg :
  Py.contains now (error_body now kind msg) = true
  /\ Py.contains kind (error_body now kind msg) = true
  /\ Py.contains msg (error_body now kind msg) = true.
Proof.
  unfold error_body. repeat split.
  - apply contains_app_r, contains_here.
  - do 4 apply contains_app_r. apply contains_here.
  - do 7 apply contains_app_r. apply contains_here.
Qed.

Lemma process_target_fetch_raises env cfg target msg w :
  fetch_outcome env target = Some (Raise msg) ->
  process_target env cfg target w = on_error env cfg target msg w.
Proof.
  intros Hfetch. unfold process_target, try_except.
  by rewrite (try_body_fetch_raises _ _ _ _ _ Hfetch).
Qed.

(** A fetch that raises is reported again by every run: nothing is recorded
    of a failure. *)
Lemma failing_fetch_notifies_each_run env env' cfg target msg w :
  fetch_outcome env target = Some (Raise msg) ->
  fetch_outcome env' target = Some (Raise msg) ->
  length (notifications
            (trace (process_target env' cfg target (process_target env cfg target w).2).2))
  = S (length (notifications (trace (process_target env cfg target w).2))).
Proof.
  intros Hfetch Hfetch'.
  rewrite (process_target_fetch_raises env' _ _ _ _ Hfetch').
  destruct (on_error_run env' cfg target msg (process_target env cfg target w).2)
    as [_ [_ [d [Htr Hd]]]].
  rewrite Htr, notifications_app. unfold error_notification.
  change (notifications (Notify ?h ?b ?u :: d)) with (Notify h b u :: notifications d).
  rewrite Hd, length_app. simpl. lia.
Qed.

(** C5, as the code has it. A target whose fetch raises gets exactly one
    notification, the error notification, whose body shows the time, the
    kind of the target and the text of the exception; its state file is
    left as it was; and when the delivery of that notification does not
    raise -- as when every request is answered -- the loop goes on with
    the targets that follow. *)
Theorem fetch_error_isolated env cfg target msg rest w :
  fetch_outcome env target = Some (Raise msg) ->
  notifications (trace (process_target env cfg target w).2)
  = notifications (trace w)
    ++ [Notify (error_headline (target_title target))
          (error_body (clock env (ticks w)) (t_kind target) (safe_text_str msg))
          (default EmptyString (t_url target))]
  /\ Py.contains (clock env (ticks w))
       (error_body (clock env (ticks w)) (t_kind target) (safe_text_str msg)) = true
  /\ Py.contains (t_kind target)
       (error_body (clock env (ticks w)) (t_kind target) (safe_text_str msg)) = true
  /\ Py.contains (safe_text_str msg)
       (error_body (clock env (ticks w)) (t_kind target) (safe_text_str msg)) = true
  /\ files (process_target env cfg target w).2 = files w
  /\ (posts_succeed env -> (process_target env cfg target w).1 = Ok tt)
  /\ ((process_target env cfg target w).1 = Ok tt ->
      for_each (process_target env cfg) (target :: rest) w
      = for_each (process_target env cfg) rest (process_target env cfg target w).2).
Proof.
  intros Hfetch.
  rewrite (process_target_fetch_raises _ _ _ _ _ Hfetch).
  destruct (on_error_run env cfg target msg w) as [Hfiles [Hok [d [Htr Hd]]]].
  destruct (error_body_contains (clock env (ticks w)) (t_kind target) (safe_text_str msg))
    as [Hc1 [Hc2 Hc3]].
  split.
  { rewrite Htr, notifications_app. unfold error_notification.
    change (notifications (Notify ?h ?b ?u :: d)) with (Notify h b u :: notifications d).
    by rewrite Hd. }
  do 3 (split; [assumption|]). split; [assumption|]. split; [assumption|].
  intros Hres. cbn [for_each]. unfold mbind, M_bind.
  rewrite (process_target_fetch_raises _ _ _ _ _ Hfetch).
  destruct (on_error env cfg target msg w) as [r w1]. cbn [fst snd] in *. by subst r.
Qed.

Lemma fetch_error_isolated_witness :
  fetch_outcome (sample_env 2 posts_ok insertion_order) laws
  = Some (Raise "503 Server Error: Service Unavailable")
  /\ notifications
       (trace (process_target (sample_env 2 posts_ok insertion_order)
                 (mkConfig [laws; blog] true true) laws empty_world).2)
     = [Notify (error_headline "laws")
          (error_body "2026-01-01 09:00:00 JST" "egov_law_updates"
             "503 Server Error: Service Unavailable")
          EmptyString]
  /\ files (process_target (sample_env 2 posts_ok insertion_order)
              (mkConfig [laws; blog] true true) laws empty_world).2 = ∅.
Proof.
  assert (H1 : fetch_outcome (sample_env 2 posts_ok insertion_order) laws
               = Some (Raise "503 Server Error: Service Unavailable"))
    by (vm_compute; reflexivity).
  split; [exact H1|].
  pose proof (fetch_error_isolated (sample_env 2 posts_ok insertion_order)
                (mkConfig [laws; blog] true true) laws _ [blog] empty_world H1)
    as [Hn [_ [_ [_ [Hf _]]]]].
  split; [exact Hn | exact Hf].
Defined.

(** C5 fails when the delivery of the error notification fails too: the
    e-Gov fetch raises, the Slack webhook answers 500, the exception leaves
    the [except] block and [run_once]; the feed that follows in the
    configuration is not fetched, and nothing is saved for it. *)
Lemma failed_delivery_ends_the_cycle :
  fetch_outcome (sample_env 2 slack_down insertion_order) laws
  = Some (Raise "503 Server Error: Service Unavailable")
  /\ run_once (sample_env 2 slack_down insertion_order) (mkConfig [laws; blog] true true)
       empty_world
     = (Raise "500 Server Error",
        mkWorld ∅ 2 1
          [Printed "[2026-01-01 09:00:00 JST] run_once start";
           error_notification laws "2026-01-01 09:00:01 JST"
             "503 Server Error: Service Unavailable";
           PostSlack slack_hook
             (slack_text (error_headline "laws")
                (error_body "2026-01-01 09:00:01 JST" "egov_law_updates"
                   "503 Server Error: Service Unavailable")
                EmptyString)
             false])
  /\ notifications
       (trace (run_once (sample_env 2 posts_ok insertion_order)
                 (mkConfig [laws; blog] true true) empty_world).2)
     = [error_notification laws "2026-01-01 09:00:01 JST"
          "503 Server Error: Service Unavailable";
        Notify (item_headline "Blog" "C")
          (item_body "🟦 チェック対象に変化あり。念のため確認推奨。" (rss_item (numbered_entry 0)))
          "https://example.org/0";
        Notify (item_headline "Blog" "C")
          (item_body "🟦 チェック対象に変化あり。念のため確認推奨。" (rss_item (numbered_entry 1)))
          "https://example.org/1"].
Proof. repeat split; vm_compute; reflexivity. Qed.

(** ** A send that fails *)

Lemma notify_all_slack_fails env cfg headline body url w msg :
  slack_enabled cfg = true ->
  Py.truthy (slack_url_of env) = true ->
  http_post env (posts w) (slack_url_of env) = Raise msg ->
  notify_all env cfg headline body url w
  = (Raise msg,
     mkWorld (files w) (ticks w) (S (posts w))
       (trace w ++ [Notify headline body url;
                    PostSlack (slack_url_of env) (slack_text headline body url) false])).
Proof.
  intros Hen Hurl Hpost.
  unfold notify_all, emit, post_slack, mbind, M_bind, mret, M_ret.
  fold (slack_url_of env). rewrite Hen, Hurl. simpl. rewrite Hpost. simpl.
  by rewrite <- app_assoc.
Qed.

(** A loop ends at the first iteration that raises. *)
Lemma for_each_raises {A} (body : A -> M unit) l1 x l2 w w1 w2 msg :
  for_each body l1 w = (Ok tt, w1) ->
  body x w1 = (Raise msg, w2) ->
  for_each body (l1 ++ x :: l2) w = (Raise msg, w2).
Proof.
  revert w. induction l1 as [|y l1 IH]; intros w Hl1 Hx; simpl in *.
  - unfold mret, M_ret in Hl1. simplify_eq. unfold mbind, M_bind. by rewrite Hx.
  - unfold mbind, M_bind in *.
    destruct (body y w) as [[[]|m] w']; [|discriminate].
    by apply IH.
Qed.

(** C6, as the code has it. A failed send is an exception that nothing
    catches before the [except] block of the target: when the Slack request
    for the first new item fails -- a request that is made once the state
    has been written -- Discord is not tried for that message, no later
    item is notified, and what follows is the error notification. *)
Theorem failed_send_stops_delivery env cfg target items w it rest msg :
  fetch_outcome env target = Some (Ok items) ->
  loadable target w ->
  writable env target ->
  new_items target items w = it :: rest ->
  slack_enabled cfg = true ->
  Py.truthy (slack_url_of env) = true ->
  http_post env (posts w) (slack_url_of env) = Raise msg ->
  exists h b d,
    item_notification env target it = Some (Notify h b (safe_text_str (it_url it)))
    /\ trace (process_target env cfg target w).2
       = trace w
         ++ [Saved (state_path (t_id target)) (saved_state env target items w);
             Notify h b (safe_text_str (it_url it));
             PostSlack (slack_url_of env) (slack_text h b (safe_text_str (it_url it))) false;
             error_notification target (clock env (S (ticks w))) msg]
         ++ d
    /\ notifications d = [].
Proof.
  intros Hfetch Hload Hwrite Hnew Hen Hurl Hpost.
  unfold process_target.
  assert (Hrun : try_except (try_body env cfg target) (on_error env cfg target) w
                 = try_except (dispatch env cfg target (it :: rest))
                     (on_error env cfg target) (saved_world env target items w)).
  { unfold try_except.
    by rewrite (try_body_fetched _ _ _ _ _ Hfetch), (handle_items_run _ _ _ _ _ Hload), Hnew,
         Hwrite. }
  rewrite Hrun, try_dispatch_cons.
  destruct (notify_item_run env cfg target it (saved_world env target items w))
    as [h [b [Hev Hitem]]].
  exists h, b.
  rewrite Hitem,
    (notify_all_slack_fails env cfg h b _ (saved_world env target items w) msg Hen Hurl Hpost).
  match goal with
  | |- context [on_error env cfg target msg ?w1] =>
      destruct (on_error_run env cfg target msg w1) as [_ [_ [d [Htr Hd]]]]
  end.
  exists d. split; [assumption|]. split; [|assumption].
  rewrite Htr. unfold saved_world. simpl. by rewrite <- !app_assoc.
Qed.

Lemma failed_send_stops_delivery_witness :
  fetch_outcome (sample_env 2 first_post_fails insertion_order) blog
  = Some (Ok (sample_items 2))
  /\ loadable blog empty_world
  /\ writable (sample_env 2 first_post_fails insertion_order) blog
  /\ slack_enabled (mkConfig [blog] true true) = true
  /\ Py.truthy (slack_url_of (sample_env 2 first_post_fails insertion_order)) = true
  /\ http_post (sample_env 2 first_post_fails insertion_order) (posts empty_world)
       (slack_url_of (sample_env 2 first_post_fails insertion_order))
     = Raise "500 Server Error"
  /\ exists h b d,
       item_notification (sample_env 2 first_post_fails insertion_order) blog
         (rss_item (numbered_entry 0))
       = Some (Notify h b (safe_text_str (it_url (rss_item (numbered_entry 0)))))
       /\ trace (process_target (sample_env 2 first_post_fails insertion_order)
                   (mkConfig [blog] true true) blog empty_world).2
          = trace empty_world
            ++ [Saved (state_path (t_id blog))
                  (saved_state (sample_env 2 first_post_fails insertion_order) blog
                     (sample_items 2) empty_world);
                Notify h b (safe_text_str (it_url (rss_item (numbered_entry 0))));
                PostSlack (slack_url_of (sample_env 2 first_post_fails insertion_order))
                  (slack_text h b (safe_text_str (it_url (rss_item (numbered_entry 0)))))
                  false;
                error_notification blog
                  (clock (sample_env 2 first_post_fails insertion_order)
                     (S (ticks empty_world)))
                  "500 Server Error"]
            ++ d
       /\ notifications d = [].
Proof.
  assert (H1 : fetch_outcome (sample_env 2 first_post_fails insertion_order) blog
               = Some (Ok (sample_items 2))) by (vm_compute; reflexivity).
  assert (H2 : loadable blog empty_world) by (intros err; vm_compute; discriminate).
  assert (H3 : new_items blog (sample_items 2) empty_world
               = rss_item (numbered_entry 0) :: [rss_item (numbered_entry 1)])
    by (vm_compute; reflexivity).
  assert (H4 : slack_enabled (mkConfig [blog] true true) = true) by reflexivity.
  assert (H5 : Py.truthy (slack_url_of (sample_env 2 first_post_fails insertion_order))
               = true) by (vm_compute; reflexivity).
  assert (H6 : http_post (sample_env 2 first_post_fails insertion_order)
                 (posts empty_world)
                 (slack_url_of (sample_env 2 first_post_fails insertion_order))
               = Raise "500 Server Error") by reflexivity.
  assert (H7 : writable (sample_env 2 first_post_fails insertion_order) blog)
    by reflexivity.
  split; [exact H1|]. split; [exact H2|]. split; [exact H7|]. split; [exact H4|].
  split; [exact H5|]. split; [exact H6|].
  exact (failed_send_stops_delivery _ _ blog _ empty_world _ _ _ H1 H2 H7 H3 H4 H5 H6).
Defined.

(** C6 fails: two new entries, both destinations enabled, and the first
    request -- the Slack one for the first entry -- answered with 500.
    Discord never receives the first entry, the second entry is not sent
    anywhere, and both destinations receive the error notification. *)
Lemma failed_slack_send_blocks_the_rest :
  trace (process_target (sample_env 2 first_post_fails insertion_order)
           (mkConfig [blog] true true) blog empty_world).2
  = [Saved ".state/blog.json"
       (mkState (Some ["tag:example.org,0"; "tag:example.org,1"])
                (Some "2026-01-01 09:00:00 JST"));
     Notify (item_headline "Blog" "C")
       (item_body "🟦 チェック対象に変化あり。念のため確認推奨。" (rss_item (numbered_entry 0)))
       "https://example.org/0";
     PostSlack slack_hook
       (slack_text (item_headline "Blog" "C")
          (item_body "🟦 チェック対象に変化あり。念のため確認推奨。" (rss_item (numbered_entry 0)))
          "https://example.org/0")
       false;
     error_notification blog "2026-01-01 09:00:01 JST" "500 Server Error";
     PostSlack slack_hook
       (slack_text (error_headline "Blog")
          (error_body "2026-01-01 09:00:01 JST" "rss" "500 Server Error")
          "https://example.org/feed")
       true;
     PostDiscord discord_hook (error_headline "Blog")
       (error_body "2026-01-01 09:00:01 JST" "rss" "500 Server Error"
        +:+ NL +:+ NL +:+ "https://example.org/feed")
       "https://example.org/feed" true;
     Printed "  - blog: ERROR 500 Server Error"].
Proof. vm_compute. reflexivity. Qed.

(** ** A state file that cannot be read *)




(** ** Entry ids *)

(** C8, as the code has it. An entry without an id of its own gets the
    SHA-1 of its link, and of its title only when the link is empty: the
    title plays no part in the id of an entry that has a link. *)
Theorem rss_fallback_id e :
  safe_text_str (getattr (e_id e)) = EmptyString ->
  it_id (rss_item e) = sha1 (Py.or_else (it_url (rss_item e)) (it_title (rss_item e)))
  /\ (it_url (rss_item e) <> EmptyString -> it_id (rss_item e) = sha1 (it_url (rss_item e)))
  /\ (it_url (rss_item e) = EmptyString -> it_id (rss_item e) = sha1 (it_title (rss_item e))).
Proof.
  intros Hid. unfold rss_item. simpl. rewrite Hid. simpl.
  split; [reflexivity|]. split.
  - intros Hlink. by destruct (safe_text_str (getattr (e_link e))).
  - intros Hlink. by rewrite Hlink.
Qed.

Lemma rss_fallback_id_witness :
  safe_text_str (getattr (e_id morning_entry)) = EmptyString
  /\ it_id (rss_item morning_entry) = sha1 "https://example.org/status".
Proof.
  assert (H1 : safe_text_str (getattr (e_id morning_entry)) = EmptyString)
    by (vm_compute; reflexivity).
  split; [exact H1|].
  apply (proj1 (proj2 (rss_fallback_id morning_entry H1))).
  vm_compute. discriminate.
Defined.

(** C8 fails for two entries without id that share a link and differ in
    their titles: both get the hash of the link. *)
Lemma same_link_same_id :
  e_id morning_entry = None /\ e_id evening_entry = None
  /\ it_url (rss_item morning_entry) = it_url (rss_item evening_entry)
  /\ it_title (rss_item morning_entry) <> it_title (rss_item evening_entry)
  /\ it_id (rss_item morning_entry) = it_id (rss_item evening_entry)
  /\ it_id (rss_item morning_entry) = "6661ee491585b0216212ac02f4d0c65b66c78eae".
Proof.
  split; [reflexivity|]. split; [reflexivity|].
  split; [vm_compute; reflexivity|]. split; [vm_compute; discriminate|].
  split; vm_compute; reflexivity.
Qed.

(** ** A whole cycle *)

Lemma append_length a : forall b,
  String.length (a +:+ b) = String.length a + String.length b.
Proof.
  induction a as [|c a IH]; intros b; [reflexivity|].
  change (String.length (String c a +:+ b)) with (S (String.length (a +:+ b))).
  rewrite IH. reflexivity.
Qed.

Lemma append_inj_l s : forall a b, a +:+ s = b +:+ s -> a = b.
Proof.
  induction a as [|c a IH]; intros [|d b] H.
  - reflexivity.
  - apply (f_equal String.length) in H. rewrite !append_length in H.
    simpl in H. exfalso. lia.
  - apply (f_equal String.length) in H. rewrite !append_length in H.
    simpl in H. exfalso. lia.
  - change (String c (a +:+ s) = String d (b +:+ s)) in H.
    injection H as -> H. f_equal. by apply IH.
Qed.

Lemma state_path_inj a b : state_path a = state_path b -> a = b.
Proof.
  unfold state_path. intros H.
  apply (append_inj_l ".json"). by apply (inj (String.append ".state/")) in H.
Qed.


Lemma process_target_no_fetcher env cfg target w :
  fetch_outcome env target = None ->
  process_target env cfg target w = (Ok tt, printed w (skip_line target)).
Proof.
  unfold fetch_outcome, process_target, try_except, try_body.
  destruct (String.eqb (t_kind target) "rss"); [discriminate|].
  destruct (String.eqb (t_kind target) "egov_law_updates"); [discriminate|].
  by destruct (String.eqb (t_kind target) "jgrants").
Qed.

Lemma process_target_unreadable env cfg target items err w :
  fetch_outcome env target = Some (Ok items) ->
  files w !! state_path (t_id target) = Some (Garbage err) ->
  process_target env cfg target w = on_error env cfg target err w.
Proof.
  intros Hfetch Herr. unfold process_target, try_except.
  rewrite (try_body_fetched _ _ _ _ _ Hfetch).
  unfold handle_items, mbind, M_bind, load_state. by rewrite Herr.
Qed.

(** An iteration writes no state file but the one of its target. *)
Lemma process_target_other_files env cfg target w p :
  p <> state_path (t_id target) ->
  files (process_target env cfg target w).2 !! p = files w !! p.
Proof.
  intros Hp.
  destruct (fetch_outcome env target) as [[items|msg]|] eqn:Hfetch.
  - destruct (files w !! state_path (t_id target)) as [[st|err]|] eqn:Hfile.
    + assert (Hload : loadable target w) by (intros e; by rewrite Hfile).
      destruct (process_target_fetched env cfg target items w Hfetch Hload)
        as [[_ Hrun] | [(_ & _ & Hfiles & _) | (_ & msg & _ & Hrun)]].
      * by rewrite Hrun.
      * rewrite Hfiles. simpl. by apply lookup_insert_ne.
      * rewrite Hrun. by rewrite (proj1 (on_error_run env cfg target msg (clock_read w))).
    + rewrite (process_target_unreadable _ _ _ _ _ _ Hfetch Hfile).
      by rewrite (proj1 (on_error_run env cfg target err w)).
    + assert (Hload : loadable target w) by (intros e; by rewrite Hfile).
      destruct (process_target_fetched env cfg target items w Hfetch Hload)
        as [[_ Hrun] | [(_ & _ & Hfiles & _) | (_ & msg & _ & Hrun)]].
      * by rewrite Hrun.
      * rewrite Hfiles. simpl. by apply lookup_insert_ne.
      * rewrite Hrun. by rewrite (proj1 (on_error_run env cfg target msg (clock_read w))).
  - rewrite (process_target_fetch_raises _ _ _ _ _ Hfetch).
    by rewrite (proj1 (on_error_run env cfg target msg w)).
  - by rewrite (process_target_no_fetcher _ _ _ _ Hfetch).
Qed.

Lemma for_each_other_files env cfg (l : list Target) p : forall w,
  Forall (fun t => p <> state_path (t_id t)) l ->
  files (for_each (process_target env cfg) l w).2 !! p = files w !! p.
Proof.
  induction l as [|t l IH]; intros w Hl; [reflexivity|].
  apply Forall_cons in Hl as [Ht Hl].
  cbn [for_each]. unfold mbind, M_bind.
  pose proof (process_target_other_files env cfg t w p Ht) as Hstep.
  destruct (process_target env cfg t w) as [[[]|msg] w1]; cbn [snd] in *.
  - by rewrite IH.
  - exact Hstep.
Qed.



Lemma run_once_run env cfg w :
  run_once env cfg w
  = match for_each (process_target env cfg) (targets cfg) (started env w) with
    | (Ok _, w1) => (Ok tt, ended env w1)
    | (Raise msg, w1) => (Raise msg, w1)
    end.
Proof.
  unfold run_once, now_jst_str, print, emit, mbind, M_bind, started, ended, printed.
  simpl. by destruct (for_each _ _ _) as [[[]|msg] w1].
Qed.


(** ** Strings as lists of bytes *)

Lemma chars_inj a b : list_ascii_of_string a = list_ascii_of_string b -> a = b.
Proof.
  intros H. rewrite <- (string_of_list_ascii_of_string a), H.
  apply string_of_list_ascii_of_string.
Qed.

Lemma chars_append a b :
  list_ascii_of_string (a +:+ b) = list_ascii_of_string a ++ list_ascii_of_string b.
Proof.
  induction a as [|c a IH]; [reflexivity|].
  change (list_ascii_of_string (String c a +:+ b)) with (c :: list_ascii_of_string (a +:+ b)).
  by rewrite IH.
Qed.

Lemma chars_rev_onto s : forall acc,
  list_ascii_of_string (Py.rev_string_onto s acc)
  = rev (list_ascii_of_string s) ++ list_ascii_of_string acc.
Proof.
  induction s as [|c s IH]; intros acc; simpl; [reflexivity|].
  rewrite IH. simpl. by rewrite <- app_assoc.
Qed.

Lemma chars_rev s : list_ascii_of_string (Py.rev_string s) = rev (list_ascii_of_string s).
Proof. unfold Py.rev_string. rewrite chars_rev_onto. simpl. apply app_nil_r. Qed.

Lemma rev_string_involutive s : Py.rev_string (Py.rev_string s) = s.
Proof. apply chars_inj. by rewrite !chars_rev, rev_involutive. Qed.

Lemma chars_drop n : forall s,
  list_ascii_of_string (Py.drop_string n s) = skipn n (list_ascii_of_string s).
Proof. induction n as [|n IH]; intros [|c s]; simpl; try reflexivity. apply IH. Qed.

Lemma starts_with_prefix p : forall s,
  Py.starts_with p s = true <-> exists r, list_ascii_of_string s = list_ascii_of_string p ++ r.
Proof.
  induction p as [|a p IH]; intros s; simpl.
  - split; [intros _; by exists (list_ascii_of_string s) | reflexivity].
  - destruct s as [|b s]; simpl.
    + split; [discriminate | intros [r Hr]; discriminate].
    + destruct (Ascii.eqb a b) eqn:Hab.
      * apply Ascii.eqb_eq in Hab as ->. rewrite IH. split.
        -- intros [r Hr]. exists r. by rewrite Hr.
        -- intros [r Hr]. exists r. by simplify_eq.
      * apply Ascii.eqb_neq in Hab. split; [discriminate|].
        intros [r Hr]. simplify_eq.
Qed.

(** A prefix of a string starts with nothing the string does not start
    with. *)
Lemma starts_with_of_prefix w p s r :
  list_ascii_of_string s = list_ascii_of_string p ++ r ->
  Py.starts_with w p = true -> Py.starts_with w s = true.
Proof.
  intros Hs Hw. apply starts_with_prefix in Hw as [r' Hr'].
  apply starts_with_prefix. exists (r' ++ r). by rewrite Hs, Hr', <- app_assoc.
Qed.

Lemma lstrip1_none ws s :
  Py.lstrip1 ws s = None <-> Forall (fun w => Py.starts_with w s = false) ws.
Proof.
  induction ws as [|w ws IH]; simpl.
  - split; [constructor | reflexivity].
  - destruct (Py.starts_with w s) eqn:Hw.
    + split; [discriminate|]. intros H. apply Forall_cons in H as [H _]. congruence.
    + rewrite IH. split; [by constructor | intros H; by apply Forall_cons in H as [_ H]].
Qed.

Lemma lstrip_fuel_drops ws : forall fuel s,
  exists k, Py.lstrip_fuel ws fuel s = Py.drop_string k s.
Proof.
  induction fuel as [|fuel IH]; intros s; simpl.
  - by exists 0.
  - destruct (Py.lstrip1 ws s) as [s'|] eqn:Hs; [|by exists 0].
    assert (Hd : exists k, s' = Py.drop_string k s).
    { clear IH. induction ws as [|w ws IHws]; simpl in Hs; [discriminate|].
      destruct (Py.starts_with w s); [|by apply IHws].
      simplify_eq. by eexists. }
    destruct Hd as [k ->]. destruct (IH (Py.drop_string k s)) as [k' Hk'].
    exists (k + k'). rewrite Hk'. apply chars_inj.
    rewrite !chars_drop. rewrite Nat.add_comm. apply skipn_skipn.
Qed.

Lemma lstrip_fuel_fixed ws fuel s :
  Py.lstrip1 ws s = None -> Py.lstrip_fuel ws fuel s = s.
Proof. intros H. destruct fuel; simpl; [reflexivity | by rewrite H]. Qed.

Lemma rev_whitespace_nonempty :
  Forall (fun w => w <> EmptyString) (map Py.rev_string Py.whitespace).
Proof. unfold Py.whitespace. simpl. repeat constructor; discriminate. Qed.

(** ** [safe_text] *)

Lemma one_line_replace s :
  one_line (Py.replace_char Py.LF Py.SP (Py.replace_char Py.CR Py.SP s)).
Proof.
  unfold one_line. induction s as [|c s IH]; simpl; constructor; [|exact IH].
  destruct (Ascii.eqb c Py.CR) eqn:Hcr.
  - simpl. split; discriminate.
  - destruct (Ascii.eqb c Py.LF) eqn:Hlf.
    + split; discriminate.
    + apply Ascii.eqb_neq in Hcr, Hlf. by split.
Qed.

Lemma one_line_drop k s : one_line s -> one_line (Py.drop_string k s).
Proof.
  unfold one_line. rewrite chars_drop. intros H.
  rewrite <- (firstn_skipn k (list_ascii_of_string s)) in H. by apply Forall_app in H as [_ H].
Qed.

Lemma one_line_rev s : one_line s -> one_line (Py.rev_string s).
Proof. unfold one_line. rewrite chars_rev. apply Forall_rev. Qed.

Lemma one_line_strip s : one_line s -> one_line (Py.strip s).
Proof.
  intros H. unfold Py.strip, Py.rstrip, Py.lstrip, Py.lstrip_with.
  destruct (lstrip_fuel_drops Py.whitespace (String.length s) s) as [k ->].
  set (t := Py.drop_string k s).
  destruct (lstrip_fuel_drops (map Py.rev_string Py.whitespace)
              (String.length (Py.rev_string t)) (Py.rev_string t)) as [k' ->].
  apply one_line_rev, one_line_drop, one_line_rev, one_line_drop, H.
Qed.

Lemma replace_absent a b s :
  Forall (fun c => c <> a) (list_ascii_of_string s) -> Py.replace_char a b s = s.
Proof.
  induction s as [|c s IH]; simpl; [reflexivity|]. intros H.
  apply Forall_cons in H as [Hc Hs]. rewrite (IH Hs).
  apply Ascii.eqb_neq in Hc. by rewrite Hc.
Qed.

Lemma stripped_strip s : stripped (Py.strip s).
Proof.
  unfold Py.strip.
  set (t := Py.lstrip s).
  assert (Ht : Py.lstrip1 Py.whitespace t = None) by apply lstrip_done.
  unfold Py.rstrip, Py.lstrip_with.
  set (L := Py.lstrip_fuel _ _ _).
  assert (HL : Py.lstrip1 (map Py.rev_string Py.whitespace) L = None).
  { apply lstrip_fuel_done; [apply rev_whitespace_nonempty | lia]. }
  destruct (lstrip_fuel_drops (map Py.rev_string Py.whitespace)
              (String.length (Py.rev_string t)) (Py.rev_string t)) as [k Hk].
  fold L in Hk.
  assert (Hpre : list_ascii_of_string t
                 = list_ascii_of_string (Py.rev_string L)
                   ++ rev (firstn k (rev (list_ascii_of_string t)))).
  { rewrite chars_rev, Hk, chars_drop, chars_rev, <- rev_app_distr, firstn_skipn.
    by rewrite rev_involutive. }
  apply lstrip1_none in Ht. apply lstrip1_none in HL.
  unfold stripped. apply Forall_forall. intros w Hw. split.
  - rewrite Forall_forall in Ht. specialize (Ht w Hw).
    destruct (Py.starts_with w (Py.rev_string L)) eqn:Hs; [|reflexivity].
    by rewrite (starts_with_of_prefix w _ t _ Hpre Hs) in Ht.
  - unfold PyExt.ends_with. rewrite rev_string_involutive.
    rewrite Forall_forall in HL. apply HL.
    apply list_elem_of_In, in_map, list_elem_of_In, Hw.
Qed.

Lemma strip_fixed s : stripped s -> Py.strip s = s.
Proof.
  intros H. unfold stripped in H.
  assert (H1 : Py.lstrip1 Py.whitespace s = None).
  { apply lstrip1_none. eapply Forall_impl; [exact H|]. by intros w [Hw _]. }
  assert (H2 : Py.lstrip1 (map Py.rev_string Py.whitespace) (Py.rev_string s) = None).
  { apply lstrip1_none. apply Forall_map. eapply Forall_impl; [exact H|].
    by intros w [_ Hw]. }
  unfold Py.strip, Py.lstrip, Py.rstrip, Py.lstrip_with.
  rewrite (lstrip_fuel_fixed _ _ _ H1), (lstrip_fuel_fixed _ _ _ H2).
  apply rev_string_involutive.
Qed.

Lemma safe_text_str_normalised s :
  one_line (safe_text_str s) /\ stripped (safe_text_str s).
Proof. split; [apply one_line_strip, one_line_replace | apply stripped_strip]. Qed.

Lemma empty_normalised : one_line EmptyString /\ stripped EmptyString.
Proof.
  split; [constructor|]. unfold stripped, Py.whitespace. simpl. repeat constructor.
Qed.

(** X1. What [safe_text] returns holds no carriage return and no line
    feed, and neither starts nor ends with a whitespace character. *)
Theorem safe_text_normalises s :
  one_line (safe_text s) /\ stripped (safe_text s).
Proof.
  destruct s as [s|].
  - change (safe_text (Some s)) with (safe_text_str s). apply safe_text_str_normalised.
  - change (safe_text None) with EmptyString. apply empty_normalised.
Qed.

(** X2. [safe_text] is idempotent: a text that went through it once, as
    the fields of every item have, comes back unchanged. *)
Theorem safe_text_idempotent s :
  safe_text (Some (safe_text s)) = safe_text s.
Proof.
  assert (H : one_line (safe_text s) /\ stripped (safe_text s))
    by (destruct s; [apply safe_text_str_normalised | apply empty_normalised]).
  destruct H as [Hline Hstrip].
  change (safe_text (Some (safe_text s))) with (safe_text_str (safe_text s)).
  unfold safe_text_str.
  rewrite (replace_absent Py.CR).
  - rewrite (replace_absent Py.LF); [by apply strip_fixed|].
    eapply Forall_impl; [exact Hline|]. by intros c [_ Hc].
  - eapply Forall_impl; [exact Hline|]. by intros c [Hc _].
Qed.

(** ** Slices *)

Lemma slice_to_firstn {A} (n : Z) (l : list A) :
  Py.slice_to n l = firstn (length (Py.slice_to n l)) l.
Proof.
  assert (H : forall k, firstn k l = firstn (length (firstn k l)) l).
  { intros k. rewrite length_firstn. destruct (Nat.le_gt_cases k (length l)).
    - by rewrite Nat.min_l.
    - rewrite Nat.min_r, firstn_all by lia. apply firstn_all2. lia. }
  unfold Py.slice_to. destruct (0 <=? n)%Z; apply H.
Qed.

Lemma slice_to_length {A} (n : Z) (l : list A) :
  ((0 <= n)%Z -> length (Py.slice_to n l) = Nat.min (Z.to_nat n) (length l))
  /\ ((n < 0)%Z -> length (Py.slice_to n l) = length l - Z.to_nat (- n)).
Proof.
  unfold Py.slice_to. split; intros Hn.
  - apply Z.leb_le in Hn. rewrite Hn. apply length_firstn.
  - apply Z.leb_gt in Hn. rewrite Hn. rewrite length_firstn. lia.
Qed.

Lemma slice_to_map {A B} (f : A -> B) (n : Z) (l : list A) :
  Py.slice_to n (map f l) = map f (Py.slice_to n l).
Proof.
  unfold Py.slice_to. rewrite length_map. destruct (0 <=? n)%Z; apply firstn_map.
Qed.

Lemma slice_to_Forall {A} (P : A -> Prop) (n : Z) (l : list A) :
  Forall P l -> Forall P (Py.slice_to n l).
Proof.
  intros H. rewrite slice_to_firstn. rewrite <- (firstn_skipn (length (Py.slice_to n l)) l) in H.
  by apply Forall_app in H as [H _].
Qed.

Lemma take_chars_len s : forall n, PyExt.len (Py.take_chars n s) <= n.
Proof.
  induction s as [|c s IH]; intros n; simpl; [lia|].
  destruct (Py.is_continuation c) eqn:Hc; simpl.
  - rewrite Hc. apply IH.
  - destruct n as [|n]; simpl; [lia|]. rewrite Hc. specialize (IH n). lia.
Qed.

Lemma take_chars_prefix s : forall n,
  exists r, list_ascii_of_string s = list_ascii_of_string (Py.take_chars n s) ++ r.
Proof.
  induction s as [|c s IH]; intros n; simpl; [by exists []|].
  destruct (Py.is_continuation c).
  - destruct (IH n) as [r Hr]. exists r. simpl. by rewrite <- Hr.
  - destruct n as [|n]; [by eexists|].
    destruct (IH n) as [r Hr]. exists r. simpl. by rewrite <- Hr.
Qed.

Lemma one_line_take_chars n s : one_line s -> one_line (Py.take_chars n s).
Proof.
  unfold one_line. intros H. destruct (take_chars_prefix s n) as [r Hr].
  rewrite Hr in H. by apply Forall_app in H as [H _].
Qed.

Lemma one_line_app a b : one_line a -> one_line b -> one_line (a +:+ b).
Proof. unfold one_line. rewrite chars_append. intros Ha Hb. by apply Forall_app. Qed.

(** ** The digest *)

Lemma hex_digit_hex x : (0 <= x < 16)%Z -> hex_char (Sha1.hex_digit x).
Proof.
  intros Hx. unfold hex_char.
  assert (H : (x = 0 \/ x = 1 \/ x = 2 \/ x = 3 \/ x = 4 \/ x = 5 \/ x = 6 \/ x = 7
              \/ x = 8 \/ x = 9 \/ x = 10 \/ x = 11 \/ x = 12 \/ x = 13 \/ x = 14
              \/ x = 15)%Z) by lia.
  decompose [or] H; subst; vm_compute; tauto.
Qed.

Lemma hex_byte_hex x :
  Forall hex_char (list_ascii_of_string (Sha1.hex_byte (Z.land x 255))).
Proof.
  unfold Sha1.hex_byte. simpl.
  assert (Hb : (0 <= Z.land x 255 < 256)%Z).
  { change 255%Z with (Z.ones 8). rewrite Z.land_ones by lia.
    apply Z.mod_pos_bound. lia. }
  apply List.Forall_cons; [|apply List.Forall_cons; [|apply List.Forall_nil]];
    apply hex_digit_hex.
  - rewrite Z.shiftr_div_pow2 by lia. change (2 ^ 4)%Z with 16%Z.
    split; [apply Z.div_pos; lia | apply Z.div_lt_upper_bound; lia].
  - change 15%Z with (Z.ones 4). rewrite Z.land_ones by lia.
    apply Z.mod_pos_bound. lia.
Qed.

Lemma sha1_shape s :
  String.length (sha1 s) = 40 /\ Forall hex_char (list_ascii_of_string (sha1 s)).
Proof.
  unfold sha1. set (r := Sha1.blocks _ _ _). clearbody r. destruct r as [a b c d e].
  split; [reflexivity|].
  unfold Sha1.hexdigest, Sha1.be_bytes.
  cbn [flat_map app map Sha1.ra Sha1.rb Sha1.rc Sha1.rd Sha1.re].
  change (Z.of_nat 3) with 3%Z. change (Z.of_nat 2) with 2%Z.
  change (Z.of_nat 1) with 1%Z. change (Z.of_nat 0) with 0%Z.
  repeat match goal with
         | |- Forall _ (list_ascii_of_string (String.concat _ (?x :: ?y :: ?l))) =>
             change (String.concat EmptyString (x :: y :: l))
               with (x +:+ EmptyString +:+ String.concat EmptyString (y :: l));
             rewrite !chars_append; apply Forall_app; split; [apply hex_byte_hex|];
             apply Forall_app; split; [constructor|]
         end.
  apply hex_byte_hex.
Qed.

Lemma sha1_nonempty s : sha1 s <> EmptyString.
Proof.
  intros H. pose proof (proj1 (sha1_shape s)) as Hlen. rewrite H in Hlen. discriminate.
Qed.

Lemma one_line_hex s : Forall hex_char (list_ascii_of_string s) -> one_line s.
Proof.
  unfold one_line. intros H. eapply Forall_impl; [exact H|].
  intros c Hc. unfold hex_char in Hc. simpl in Hc.
  decompose [or] Hc; subst; try contradiction; split; discriminate.
Qed.

Lemma or_else_nonempty x y : y <> EmptyString -> Py.or_else x y <> EmptyString.
Proof. destruct x; simpl; [tauto | discriminate]. Qed.

(** ** [fetch_rss] *)

(** X3. Every item of [fetch_rss] has a non-empty id on one line, namely
    the normalised id of the entry or else 40 hexadecimal digits; its
    title, link and date are normalised as by [safe_text]; its summary is
    on one line and at most 280 characters long; its source is "RSS". *)
Theorem rss_item_invariants e :
  it_id (rss_item e) <> EmptyString
  /\ one_line (it_id (rss_item e))
  /\ (it_id (rss_item e) = safe_text (e_id e)
      \/ (String.length (it_id (rss_item e)) = 40
          /\ Forall hex_char (list_ascii_of_string (it_id (rss_item e)))))
  /\ (one_line (it_title (rss_item e)) /\ stripped (it_title (rss_item e)))
  /\ (one_line (it_url (rss_item e)) /\ stripped (it_url (rss_item e)))
  /\ (one_line (it_published (rss_item e)) /\ stripped (it_published (rss_item e)))
  /\ one_line (it_summary (rss_item e))
  /\ PyExt.len (it_summary (rss_item e)) <= 280
  /\ it_source (rss_item e) = "RSS".
Proof.
  unfold rss_item. cbn [it_id it_title it_url it_published it_summary it_source].
  assert (Hnorm : forall s, one_line (safe_text_str s) /\ stripped (safe_text_str s))
    by (intros s; apply safe_text_str_normalised).
  split; [apply or_else_nonempty, sha1_nonempty|].
  split.
  { destruct (safe_text_str (getattr (e_id e))) eqn:Hid; simpl.
    - apply one_line_hex, sha1_shape.
    - rewrite <- Hid. apply Hnorm. }
  split.
  { assert (Hempty : safe_text_str EmptyString = EmptyString) by reflexivity.
    unfold safe_text, Py.or_else, getattr.
    destruct (e_id e) as [i|]; cbn [from_option id].
    - destruct (safe_text_str i) eqn:Hid; [right; apply sha1_shape | by left].
    - rewrite Hempty. right. apply sha1_shape. }
  do 3 (split; [apply Hnorm|]).
  split; [apply one_line_take_chars, Hnorm|].
  split; [apply take_chars_len | reflexivity].
Qed.

(** X4. [fetch_rss] returns the first [max_items] entries of the feed, in
    feed order, all of them when there are fewer; a negative [max_items]
    cuts that many entries off the end instead; and an exception of the
    parser leaves the function as it is. *)
Theorem fetch_rss_count env url max_items w :
  match feedparser_parse env url with
  | Ok entries =>
      exists k,
        fetch_rss env url max_items w = (Ok (map rss_item (firstn k entries)), w)
        /\ ((0 <= max_items)%Z -> k = Nat.min (Z.to_nat max_items) (length entries))
        /\ ((max_items < 0)%Z -> k = length entries - Z.to_nat (- max_items))
  | Raise msg => fetch_rss env url max_items w = (Raise msg, w)
  end.
Proof.
  unfold fetch_rss, lift, mbind, M_bind, mret, M_ret.
  destruct (feedparser_parse env url) as [entries|msg]; [|reflexivity].
  exists (length (Py.slice_to max_items entries)).
  split; [by rewrite <- slice_to_firstn | apply slice_to_length].
Qed.

(** ** [fetch_egov_updates] *)

Lemma one_line_join sep l :
  one_line sep -> Forall one_line l -> one_line (PyExt.join sep l).
Proof.
  intros Hsep. induction 1 as [|x l Hx Hl IH]; [constructor|].
  destruct l as [|y l]; [exact Hx|].
  change (PyExt.join sep (x :: y :: l)) with (x +:+ sep +:+ PyExt.join sep (y :: l)).
  apply one_line_app; [exact Hx|]. by apply one_line_app.
Qed.

Lemma one_line_literal s :
  forallb (fun c => negb (Ascii.eqb c Py.CR) && negb (Ascii.eqb c Py.LF))
          (list_ascii_of_string s) = true ->
  one_line s.
Proof.
  unfold one_line. intros H. apply Forall_forall. intros c Hc.
  rewrite forallb_forall in H. apply list_elem_of_In in Hc. specialize (H c Hc).
  apply andb_true_iff in H as [H1 H2].
  apply negb_true_iff in H1, H2. by apply Ascii.eqb_neq in H1, H2.
Qed.

(** X5. [fetch_egov_updates] passes on the exception of the request or of
    the parser, returns no item for a document without [ApplData], and
    otherwise one item for each of the first [max_items] elements: with a
    title that is never empty, the fixed link, the date of the query as its
    date, an id of 40 hexadecimal digits and a one-line summary of at most
    280 characters. *)
Theorem egov_items date_str response max_items :
  match response with
  | Raise msg => Egov.fetch_egov_updates date_str response max_items = Raise msg
  | Ok None => Egov.fetch_egov_updates date_str response max_items = Ok []
  | Ok (Some infos) =>
      exists k,
        Egov.fetch_egov_updates date_str response max_items
        = Ok (map (Egov.law_item date_str) (firstn k infos))
        /\ ((0 <= max_items)%Z -> k = Nat.min (Z.to_nat max_items) (length infos))
        /\ Forall (fun it =>
                     it_title it <> EmptyString
                     /\ it_url it = Egov.link
                     /\ it_published it = date_str
                     /\ it_source it = "e-Gov法令API"
                     /\ String.length (it_id it) = 40
                     /\ Forall hex_char (list_ascii_of_string (it_id it))
                     /\ one_line (it_summary it)
                     /\ PyExt.len (it_summary it) <= 280)
                  (map (Egov.law_item date_str) (firstn k infos))
  end.
Proof.
  destruct response as [[infos|]|msg]; try reflexivity.
  exists (length (Py.slice_to max_items infos)). split; [|split].
  - unfold Egov.fetch_egov_updates. f_equal.
    rewrite <- slice_to_firstn. apply slice_to_map.
  - apply slice_to_length.
  - apply Forall_map, Forall_forall. intros info _.
    unfold Egov.law_item.
    cbn [it_id it_title it_url it_published it_summary it_source].
    split; [by apply or_else_nonempty|].
    do 3 (split; [reflexivity|]).
    split; [apply sha1_shape|]. split; [apply sha1_shape|].
    split; [|apply take_chars_len].
    apply one_line_take_chars, one_line_join; [by apply one_line_literal|].
    apply Forall_forall. intros x Hx. apply list_elem_of_In, filter_In in Hx as [Hx _].
    assert (Hs : forall o, one_line (safe_text o))
      by (intros [o|]; [apply safe_text_str_normalised | apply empty_normalised]).
    simpl in Hx. decompose [or] Hx; subst; try contradiction; try apply Hs;
      (apply one_line_app; [by apply one_line_literal | apply Hs]).
Qed.

(** ** Cycles that do not raise *)

Lemma for_each_ok {A} (body : A -> M unit) (l : list A) :
  (forall x w, (body x w).1 = Ok tt) -> forall w, (for_each body l w).1 = Ok tt.
Proof.
  intros Hbody. induction l as [|x l IH]; intros w; [reflexivity|].
  cbn [for_each]. unfold mbind, M_bind. specialize (Hbody x w).
  destruct (body x w) as [[[]|msg] w']; [apply IH | discriminate].
Qed.

Section Delivered.

Variables (env : Env) (cfg : Config).

Hypothesis delivered : forall headline body url w,
  (notify_all env cfg headline body url w).1 = Ok tt.

Lemma notify_item_delivered target it w :
  (notify_item env cfg target it w).1 = Ok tt.
Proof.
  unfold notify_item, lift, mbind, M_bind.
  destruct (importance_level_ok env it target) as (lv & c & -> & _). apply delivered.
Qed.

Lemma dispatch_delivered target new w : (dispatch env cfg target new w).1 = Ok tt.
Proof.
  unfold dispatch, mbind, M_bind.
  pose proof (for_each_ok (notify_item env cfg target) (firstn 3 new)
                (notify_item_delivered target) w) as H1.
  destruct (for_each _ _ w) as [[[]|msg] w1]; [|discriminate].
  destruct (3 <? length new)%nat.
  - pose proof (delivered (overflow_headline (target_title target))
                  (overflow_body (length new - 3)) overflow_url w1) as H2.
    destruct (notify_all _ _ _ _ _ w1) as [[[]|msg] w2]; [reflexivity | discriminate].
  - reflexivity.
Qed.

Lemma on_error_delivered target e w : (on_error env cfg target e w).1 = Ok tt.
Proof.
  unfold on_error, now_jst_str, mbind, M_bind.
  match goal with
  | |- context [notify_all env cfg ?h ?b ?u ?w'] =>
      pose proof (delivered h b u w') as H; destruct (notify_all env cfg h b u w') as [[[]|msg] w2]
  end; [reflexivity | discriminate].
Qed.

Lemma process_target_delivered target w : (process_target env cfg target w).1 = Ok tt.
Proof.
  unfold process_target, try_except.
  destruct (try_body env cfg target w) as [[[]|msg] w1] eqn:Hbody;
    [reflexivity | apply on_error_delivered].
Qed.

Lemma run_once_delivered w : (run_once env cfg w).1 = Ok tt.
Proof.
  rewrite run_once_run.
  pose proof (for_each_ok (process_target env cfg) (targets cfg)
                process_target_delivered (started env w)) as H.
  destruct (for_each _ _ _) as [[[]|msg] w1]; [reflexivity | discriminate].
Qed.

End Delivered.

(** X7. The [try] statement of an iteration (lines 276 to 333) lets one
    kind of exception out: whatever the fetcher, the state store, the
    classifier or the sending of an item raises is caught, and when an
    exception does leave the iteration, it is the one that [notify_all]
    raised in the [except] block, while the error was being reported. *)
Theorem escaping_exception env cfg target w msg :
  (process_target env cfg target w).1 = Raise msg ->
  exists e w1,
    try_body env cfg target w = (Raise e, w1)
    /\ (notify_all env cfg (error_headline (target_title target))
          (error_body (clock env (ticks w1)) (t_kind target) (safe_text_str e))
          (default EmptyString (t_url target)) (clock_read w1)).1 = Raise msg.
Proof.
  unfold process_target, try_except.
  destruct (try_body env cfg target w) as [[[]|e] w1]; [discriminate|].
  intros Hraise. exists e, w1. split; [reflexivity|].
  unfold on_error, now_jst_str, mbind, M_bind in Hraise. fold (clock_read w1) in Hraise.
  destruct (notify_all env cfg _ _ _ (clock_read w1)) as [[[]|msg'] w2];
    [discriminate | exact Hraise].
Qed.

Lemma escaping_exception_witness :
  exists e w1,
    try_body (sample_env 2 slack_down insertion_order) (mkConfig [laws] true true) laws
      empty_world = (Raise e, w1)
    /\ (notify_all (sample_env 2 slack_down insertion_order) (mkConfig [laws] true true)
          (error_headline (target_title laws))
          (error_body (clock (sample_env 2 slack_down insertion_order) (ticks w1))
             (t_kind laws) (safe_text_str e))
          (default EmptyString (t_url laws)) (clock_read w1)).1
       = Raise "500 Server Error".
Proof.
  apply (escaping_exception (sample_env 2 slack_down insertion_order)
           (mkConfig [laws] true true) laws empty_world "500 Server Error").
  vm_compute. reflexivity.
Defined.

(** ** What a cycle preserves *)

Section Preserved.

Variable R : World -> World -> Prop.
Hypothesis R_refl : forall w, R w w.
Hypothesis R_trans : forall w1 w2 w3, R w1 w2 -> R w2 w3 -> R w1 w3.

Lemma preserves_ret {A} (a : A) : preserves R (mret a).
Proof. intros w. apply R_refl. Qed.

Lemma preserves_raise {A} msg : preserves R (raise msg : M A).
Proof. intros w. apply R_refl. Qed.

Lemma preserves_lift {A} (r : Result A) : preserves R (lift r).
Proof. intros w. apply R_refl. Qed.

Lemma preserves_load_state target_id : preserves R (load_state target_id).
Proof.
  intros w. unfold load_state.
  destruct (files w !! state_path target_id) as [[]|]; apply R_refl.
Qed.

Lemma preserves_bind {A B} (c : M A) (f : A -> M B) :
  preserves R c -> (forall a, preserves R (f a)) -> preserves R (c ≫= f).
Proof.
  intros Hc Hf w. unfold mbind, M_bind. specialize (Hc w).
  destruct (c w) as [[a|msg] w1]; [|exact Hc].
  eapply R_trans; [exact Hc | apply Hf].
Qed.

Lemma preserves_try {A} (c : M A) (h : string -> M A) :
  preserves R c -> (forall msg, preserves R (h msg)) -> preserves R (try_except c h).
Proof.
  intros Hc Hh w. unfold try_except. specialize (Hc w).
  destruct (c w) as [[a|msg] w1]; [exact Hc|].
  eapply R_trans; [exact Hc | apply Hh].
Qed.

Lemma preserves_for_each {A} (body : A -> M unit) (l : list A) :
  (forall x, preserves R (body x)) -> preserves R (for_each body l).
Proof.
  intros Hbody. induction l as [|x l IH]; [apply preserves_ret|].
  cbn [for_each]. apply preserves_bind; [apply Hbody | intros _; exact IH].
Qed.

Variables (env : Env) (cfg : Config).

Hypothesis R_now : preserves R (now_jst_str env).
Hypothesis R_print : forall line, preserves R (print line).
Hypothesis R_update : forall target items seen,
  preserves R (update_state env target items seen).
Hypothesis R_notify : forall headline body url,
  preserves R (notify_all env cfg headline body url).

Lemma preserves_notify_item target it : preserves R (notify_item env cfg target it).
Proof.
  unfold notify_item. apply preserves_bind; [apply preserves_lift|].
  intros [lv c]. apply R_notify.
Qed.

Lemma preserves_dispatch target new : preserves R (dispatch env cfg target new).
Proof.
  unfold dispatch.
  apply preserves_bind; [apply preserves_for_each, preserves_notify_item|]. intros _.
  apply preserves_bind; [|intros _; apply R_print].
  destruct (3 <? length new)%nat; [apply R_notify | apply preserves_ret].
Qed.

Lemma preserves_handle_items target items : preserves R (handle_items env cfg target items).
Proof.
  unfold handle_items. apply preserves_bind; [apply preserves_load_state|]. intros st.
  destruct (new_items_of items (stored_ids st)); [apply R_print|].
  apply preserves_bind; [apply R_update | intros _; apply preserves_dispatch].
Qed.

Lemma preserves_try_body target : preserves R (try_body env cfg target).
Proof.
  unfold try_body.
  destruct (String.eqb (t_kind target) "rss").
  { apply preserves_bind.
    - unfold target_url. destruct (t_url target); [apply preserves_ret | apply preserves_raise].
    - intros url. apply preserves_bind; [|intros items; apply preserves_handle_items].
      unfold fetch_rss. apply preserves_bind; [apply preserves_lift|].
      intros entries. apply preserves_ret. }
  destruct (String.eqb (t_kind target) "egov_law_updates").
  { apply preserves_bind; [apply preserves_lift | intros items; apply preserves_handle_items]. }
  destruct (String.eqb (t_kind target) "jgrants").
  { apply preserves_bind; [apply preserves_lift | intros items; apply preserves_handle_items]. }
  apply R_print.
Qed.

Lemma preserves_on_error target e : preserves R (on_error env cfg target e).
Proof.
  unfold on_error. apply preserves_bind; [apply R_now|]. intros now.
  apply preserves_bind; [apply R_notify | intros _; apply R_print].
Qed.

Lemma preserves_process_target target : preserves R (process_target env cfg target).
Proof.
  unfold process_target. apply preserves_try; [apply preserves_try_body|].
  intros msg. apply preserves_on_error.
Qed.

Lemma preserves_run_once : preserves R (run_once env cfg).
Proof.
  unfold run_once. apply preserves_bind; [apply R_now|]. intros now.
  apply preserves_bind; [apply R_print|]. intros _.
  apply preserves_bind; [apply preserves_for_each, preserves_process_target|]. intros _.
  apply preserves_bind; [apply R_now | intros now'; apply R_print].
Qed.

End Preserved.

Lemma notify_all_no_destination env cfg headline body url w :
  no_destination env cfg ->
  notify_all env cfg headline body url w
  = (Ok tt, mkWorld (files w) (ticks w) (posts w) (trace w ++ [Notify headline body url])).
Proof.
  intros [Hslack Hdiscord]. unfold notify_all, mbind, M_bind, emit, mret, M_ret.
  fold (slack_url_of env).
  assert (H1 : slack_enabled cfg && Py.truthy (slack_url_of env) = false).
  { destruct Hslack as [-> | ->]; [reflexivity | apply andb_false_r]. }
  assert (H2 : discord_enabled cfg
               && Py.truthy (Py.strip (default EmptyString (DISCORD_WEBHOOK_URL env))) = false).
  { destruct Hdiscord as [-> | ->]; [reflexivity | apply andb_false_r]. }
  by rewrite H1, H2.
Qed.

Lemma requests_app f t p tr e :
  is_post e = false ->
  requests (mkWorld f t p (tr ++ [e])) = List.filter is_post tr.
Proof.
  intros He. unfold requests. cbn [trace]. rewrite List.filter_app. simpl.
  rewrite He. apply app_nil_r.
Qed.

Lemma update_state_requests env target items seen w :
  posts (update_state env target items seen w).2 = posts w
  /\ requests (update_state env target items seen w).2 = requests w.
Proof.
  unfold update_state, now_jst_str, save_state, mbind, M_bind.
  cbn [files ticks posts trace].
  destruct (open_w env (state_path (t_id target))) as [[]|msg];
    (split; [reflexivity|]); [by apply requests_app | reflexivity].
Qed.

(** X8. When neither destination is both enabled and given a URL,
    [run_once] makes no webhook request, whatever the targets, the
    fetchers, the state files and the answers the webhooks would give
    are. *)
Theorem run_once_without_destination env cfg w :
  no_destination env cfg ->
  posts (run_once env cfg w).2 = posts w
  /\ requests (run_once env cfg w).2 = requests w.
Proof.
  intros Hnone.
  apply (preserves_run_once same_requests).
  - by intros w'.
  - intros w1 w2 w3 [H1 H2] [H3 H4]. split; congruence.
  - by intros w'.
  - intros line w'. split; [reflexivity | by apply requests_app].
  - intros target items seen w'. apply update_state_requests.
  - intros h b u w'. rewrite notify_all_no_destination by exact Hnone.
    split; [reflexivity | by apply requests_app].
Qed.

Lemma run_once_without_destination_witness :
  requests (run_once (sample_env 2 slack_down insertion_order)
              (mkConfig [blog; laws; podcast] false false) empty_world).2 = [].
Proof.
  apply (run_once_without_destination (sample_env 2 slack_down insertion_order)
           (mkConfig [blog; laws; podcast] false false) empty_world).
  split; by left.
Defined.

Lemma bounded_insert w p ids now :
  bounded_files w ->
  length ids <= 300 -> NoDup ids ->
  forall q st, <[p := Json (mkState (Some ids) now)]> (files w) !! q = Some (Json st) ->
               bounded_state st.
Proof.
  intros Hw Hlen Hnd q st. destruct (decide (p = q)) as [->|Hne].
  - rewrite lookup_insert_eq. intros [= <-]. by split.
  - rewrite lookup_insert_ne by exact Hne. apply Hw.
Qed.

(** X9. [run_once] keeps the state files bounded: if every state file
    holds at most 300 seen ids, none of them twice, then so does every
    state file after the cycle, whatever the fetchers return. *)
Theorem run_once_keeps_states_bounded env cfg w :
  bounded_files w -> bounded_files (run_once env cfg w).2.
Proof.
  apply (preserves_run_once stays_bounded).
  - intros w' H. exact H.
  - intros w1 w2 w3 H1 H2 H. by apply H2, H1.
  - intros w' H. exact H.
  - intros line w' H. exact H.
  - intros target items seen w' Hw'. unfold update_state, now_jst_str, save_state, mbind, M_bind.
    cbn [files ticks posts trace].
    destruct (open_w env (state_path (t_id target))) as [[]|msg]; [|exact Hw'].
    cbn [snd files]. intros q st.
    apply (bounded_insert (mkWorld (files w') (S (ticks w')) (posts w') (trace w')));
      [exact Hw' | apply updated_ids_length | apply updated_ids_NoDup].
  - intros h b u w' Hw'.
    destruct (notify_all_trace env cfg h b u w') as (ps & _ & _ & Hfiles & _).
    unfold bounded_files. by rewrite Hfiles.
Qed.

Lemma run_once_keeps_states_bounded_witness :
  bounded_files
    (run_once (sample_env 301 posts_ok insertion_order) (mkConfig [blog] true true)
       (world_with blog (Json (mkState (Some ["a"; "b"]) None)))).2.
Proof.
  apply run_once_keeps_states_bounded. intros p st H.
  unfold world_with in H. cbn [files] in H.
  apply lookup_singleton_Some in H as [_ [= <-]].
  split; [simpl; lia | by apply NoDup_ListNoDup; repeat constructor; simpl; intuition discriminate].
Defined.

(** X10. With ids that are file names, [run_once] leaves the state of
    every id that is not among the configured targets as it was. *)
Theorem run_once_other_files env cfg w other :
  plain_id other ->
  Forall (fun t => plain_id (t_id t)) (targets cfg) ->
  ~ In other (map t_id (targets cfg)) ->
  files (run_once env cfg w).2 !! state_path other = files w !! state_path other.
Proof.
  intros _ _ Hother. rewrite run_once_run.
  assert (Hp : Forall (fun t => state_path other <> state_path (t_id t)) (targets cfg)).
  { apply List.Forall_forall. intros t Ht Heq. apply state_path_inj in Heq.
    apply Hother. rewrite Heq. by apply in_map. }
  pose proof (for_each_other_files env cfg (targets cfg) (state_path other)
                (started env w) Hp) as H.
  destruct (for_each _ _ _) as [[[]|msg] w1]; exact H.
Qed.

Lemma run_once_other_files_witness :
  files (run_once (sample_env 2 posts_ok insertion_order) (mkConfig [blog] true true)
           (world_with laws (Json (mkState (Some ["a"]) None)))).2
    !! state_path "laws"
  = Some (Json (mkState (Some ["a"]) None)).
Proof.
  rewrite (run_once_other_files (sample_env 2 posts_ok insertion_order)
             (mkConfig [blog] true true)
             (world_with laws (Json (mkState (Some ["a"]) None))) "laws").
  - reflexivity.
  - reflexivity.
  - apply List.Forall_cons; [reflexivity | apply List.Forall_nil].
  - simpl. intros [H | []]. discriminate.
Defined.

(** ** The watch loop *)

(** X12. With a negative interval in force -- from [--interval], or from
    the configuration when the option is absent or 0 -- the watch loop ends
    with the [ValueError] of [time.sleep] as soon as the first cycle has
    returned. *)
Theorem watch_negative_interval env cfg interval_sec args w n :
  a_watch args = true ->
  (interval_of args interval_sec < 0)%Z ->
  (run_once env cfg w).1 = Ok tt ->
  main (S n) env cfg interval_sec args w
  = (Raise "sleep length must be non-negative", (run_once env cfg w).2).
Proof.
  intros Hwatch Hint Hrun. unfold main. rewrite Hwatch. cbn [watch].
  unfold mbind, M_bind. destruct (run_once env cfg w) as [[[]|msg] w1]; [|discriminate].
  unfold sleep. apply Z.ltb_lt in Hint. by rewrite Hint.
Qed.

Lemma watch_negative_interval_witness :
  (main 5 (sample_env 2 posts_ok insertion_order) (mkConfig [blog] true true)
     (Some (-1)%Z) (mkArgs false true (Some 0%Z)) empty_world).1
  = Raise "sleep length must be non-negative".
Proof.
  rewrite (watch_negative_interval (sample_env 2 posts_ok insertion_order)
             (mkConfig [blog] true true) (Some (-1)%Z) (mkArgs false true (Some 0%Z))
             empty_world 4); [reflexivity | reflexivity | by vm_compute |].
  apply run_once_delivered. intros h b u w. by apply notify_all_ok.
Defined.

(** ** The requests of [notify_all] *)

Lemma notify_all_cases env cfg headline body url w :
  exists ps,
    trace (notify_all env cfg headline body url w).2 = trace w ++ Notify headline body url :: ps
    /\ posts (notify_all env cfg headline body url w).2 = posts w + length ps
    /\ ((ps = [] /\ (notify_all env cfg headline body url w).1 = Ok tt)
        \/ (exists r,
              ps = [PostSlack (slack_url_of env) (slack_text headline body url) (is_ok r)]
              /\ (notify_all env cfg headline body url w).1 = r
              /\ Py.truthy (slack_url_of env) = true)
        \/ (exists r,
              ps = [PostDiscord (discord_url_of env) (Py.take_chars 256 headline)
                      (Py.take_chars 4096 (body +:+ NL +:+ NL +:+ url)) url (is_ok r)]
              /\ (notify_all env cfg headline body url w).1 = r
              /\ Py.truthy (discord_url_of env) = true)
        \/ (exists r,
              ps = [PostSlack (slack_url_of env) (slack_text headline body url) true;
                    PostDiscord (discord_url_of env) (Py.take_chars 256 headline)
                      (Py.take_chars 4096 (body +:+ NL +:+ NL +:+ url)) url (is_ok r)]
              /\ (notify_all env cfg headline body url w).1 = r
              /\ Py.truthy (slack_url_of env) = true
              /\ Py.truthy (discord_url_of env) = true)).
Proof.
  unfold notify_all, emit, mbind, M_bind, mret, M_ret, slack_text.
  fold (slack_url_of env). fold (discord_url_of env).
  generalize (slack_url_of env) (discord_url_of env). intros surl durl.
  destruct (slack_enabled cfg && Py.truthy surl) eqn:Hse.
  - apply andb_true_iff in Hse as [_ Hst]. unfold post_slack. cbn [posts files ticks trace].
    destruct (http_post env (posts w) surl) as [[]|msg] eqn:Hp1.
    + destruct (discord_enabled cfg && Py.truthy durl) eqn:Hde.
      * apply andb_true_iff in Hde as [_ Hdt]. unfold post_discord.
        cbn [posts files ticks trace snd fst].
        eexists [_; _]. rewrite <- !app_assoc.
        split; [reflexivity|]. split; [simpl; lia|].
        do 3 right. exists (http_post env (S (posts w)) durl). by repeat split.
      * eexists [_]. cbn [posts files ticks trace snd fst]. rewrite <- !app_assoc.
        split; [reflexivity|]. split; [simpl; lia|].
        right; left. exists (Ok tt). by repeat split.
    + eexists [_]. cbn [posts files ticks trace snd fst]. rewrite <- !app_assoc.
      split; [reflexivity|]. split; [simpl; lia|].
      right; left. exists (Raise msg). by repeat split.
  - destruct (discord_enabled cfg && Py.truthy durl) eqn:Hde.
    + apply andb_true_iff in Hde as [_ Hdt]. unfold post_discord.
      cbn [posts files ticks trace snd fst].
      eexists [_]. rewrite <- !app_assoc.
      split; [reflexivity|]. split; [simpl; lia|].
      right; right; left. exists (http_post env (posts w) durl). by repeat split.
    + exists []. cbn [posts files ticks trace snd fst].
      split; [reflexivity|]. split; [simpl; lia|]. by left.
Qed.

Lemma truthy_nonempty s : Py.truthy s = true -> s <> EmptyString.
Proof. by destruct s. Qed.

Lemma well_formed_slack env text ok :
  Py.truthy (slack_url_of env) = true ->
  well_formed_request (PostSlack (slack_url_of env) text ok).
Proof. intros H. split; [by apply truthy_nonempty | apply stripped_strip]. Qed.

Lemma well_formed_discord env title description url ok :
  Py.truthy (discord_url_of env) = true ->
  well_formed_request
    (PostDiscord (discord_url_of env) (Py.take_chars 256 title)
       (Py.take_chars 4096 description) url ok).
Proof.
  intros H. split; [by apply truthy_nonempty|]. split; [apply stripped_strip|].
  split; apply take_chars_len.
Qed.

Ltac well_formed :=
  repeat (apply List.Forall_cons;
          [by (apply well_formed_slack || apply well_formed_discord)|]);
  apply List.Forall_nil.

(** X13. One call of [notify_all] makes at most two requests, each of
    them well formed: to a URL that is not empty and has no whitespace
    around it, a Discord title of at most 256 and description of at most
    4096 characters.  A request that fails is the last one of the call,
    and the call returns exactly when none has failed. *)
Theorem notify_all_requests env cfg headline body url w :
  exists ps,
    trace (notify_all env cfg headline body url w).2 = trace w ++ Notify headline body url :: ps
    /\ length ps <= 2
    /\ Forall well_formed_request ps
    /\ forallb request_ok (removelast ps) = true
    /\ ((notify_all env cfg headline body url w).1 = Ok tt <-> forallb request_ok ps = true).
Proof.
  destruct (notify_all_cases env cfg headline body url w)
    as (ps & Htrace & _ & [[-> Hr] | [(r & -> & Hr & Hs) | [(r & -> & Hr & Hd)
                                                          | (r & -> & Hr & Hs & Hd)]]]);
    eexists; (split; [exact Htrace|]); (split; [simpl; lia|]).
  - by repeat split.
  - split; [well_formed|]. split; [reflexivity|].
    rewrite Hr. destruct r as [[]|msg]; simpl; split; congruence.
  - split; [well_formed|]. split; [reflexivity|].
    rewrite Hr. destruct r as [[]|msg]; simpl; split; congruence.
  - split; [well_formed|].
    split; [reflexivity|].
    rewrite Hr. destruct r as [[]|msg]; simpl; split; congruence.
Qed.

(** X14. Every webhook request of a cycle is well formed, whatever the
    titles and summaries of the items are, and the cycle makes no request
    that its trace does not show. *)
Theorem run_once_requests env cfg w :
  exists d, requests (run_once env cfg w).2 = requests w ++ d
            /\ Forall well_formed_request d
            /\ posts (run_once env cfg w).2 = posts w + length d.
Proof.
  apply (preserves_run_once well_formed_requests).
  - intros w'. exists []. split; [by rewrite app_nil_r|]. split; [constructor | simpl; lia].
  - intros w1 w2 w3 (d1 & E1 & F1 & P1) (d2 & E2 & F2 & P2). exists (d1 ++ d2).
    split; [by rewrite E2, E1, app_assoc|]. split; [by apply Forall_app|].
    rewrite length_app. lia.
  - intros w'. exists []. split; [by rewrite app_nil_r|]. split; [constructor | simpl; lia].
  - intros line w'. exists []. split; [rewrite app_nil_r; by apply requests_app|].
    split; [constructor | simpl; lia].
  - intros target items seen w'. exists [].
    destruct (update_state_requests env target items seen w') as [Hposts Hreqs].
    split; [by rewrite app_nil_r|]. split; [constructor | simpl; lia].
  - intros h b u w'.
    destruct (notify_all_cases env cfg h b u w') as (ps & Htrace & Hposts & Hcases).
    exists ps. unfold requests at 1. rewrite Htrace, List.filter_app. cbn [List.filter is_post].
    assert (Hps : List.filter is_post ps = ps /\ Forall well_formed_request ps).
    { destruct Hcases as [[-> _] | [(r & -> & _ & Hs) | [(r & -> & _ & Hd)
                                                       | (r & -> & _ & Hs & Hd)]]];
        (split; [reflexivity|]); well_formed. }
    destruct Hps as [-> Hwf]. by repeat split.
Qed.

(** ** More of the classifier *)

(** Name the outcome of every test, the one on the kind included, and
    follow the rules on each combination. *)
Ltac split_tests :=
  repeat match goal with
         | |- context [Py.any_in ?ks ?t] => generalize (Py.any_in ks t); intro
         | |- context [Py.contains ?k ?t] => generalize (Py.contains k t); intro
         | |- context [existsb ?f ?l] => generalize (existsb f l); intro
         | |- context [String.eqb (t_kind ?t) ?k] =>
             generalize (String.eqb (t_kind t) k); intro
         end;
  repeat match goal with
         | b : bool |- _ => destruct b
         end;
  simpl.

(** X15. An item whose text holds one of the seven spike keywords is of
    level S for every target, whatever the other rules find. *)
Theorem spike_is_S env item target :
  Py.any_in security_spikes (item_text env item) = true ->
  exists c, importance_level env item target = Ok ("S", c)
            /\ Py.starts_with "🟥 " c = true.
Proof.
  intros H. unfold importance_level, final_score, score_grant_limit, score_grant_terms,
              score_law, score_security, score_default.
  rewrite H. split_tests; eexists; split; reflexivity.
Qed.

Lemma spike_is_S_witness :
  exists c,
    importance_level (sample_env 0 posts_ok insertion_order)
      (mkItem "1" "Critical RCE in libfoo" "https://example.org/1" "IT" EmptyString "RSS")
      (mkTarget "grants" "jgrants" None None None [] [] None None None)
    = Ok ("S", c) /\ Py.starts_with "🟥 " c = true.
Proof. apply spike_is_S. reflexivity. Defined.

(** X16. Level B is given to items of [jgrants] targets only; for a
    target that is neither [egov_law_updates] nor [jgrants] the result depends
    on the text of the item alone, none of the target's settings, its
    [important_keywords] included, has any effect. *)
Theorem level_B_only_for_grants env item target :
  (forall c, importance_level env item target = Ok ("B", c) -> t_kind target = "jgrants")
  /\ (forall target',
        String.eqb (t_kind target) "egov_law_updates" = false ->
        String.eqb (t_kind target) "jgrants" = false ->
        String.eqb (t_kind target') "egov_law_updates" = false ->
        String.eqb (t_kind target') "jgrants" = false ->
        importance_level env item target = importance_level env item target').
Proof.
  split.
  - intros c. unfold importance_level, final_score, score_grant_limit, score_grant_terms.
    destruct (String.eqb (t_kind target) "jgrants") eqn:Hk; [intros _; by apply String.eqb_eq|].
    unfold score_law, score_security, score_default.
    split_tests; discriminate.
  - intros target' H1 H2 H3 H4.
    unfold importance_level, final_score, score_grant_limit, score_grant_terms, score_law.
    by rewrite H1, H2, H3, H4.
Qed.

(** X17. For an [egov_law_updates] target, an item whose text holds one
    of the target's [important_keywords] is of level S or A, never lower,
    and carries the comment of the law rule, also when it was a security
    rule that set the level. *)
Theorem law_keyword_boost env item target :
  t_kind target = "egov_law_updates" ->
  existsb (fun k => Py.contains (str_lower env k) (item_text env item))
          (t_important_keywords target) = true ->
  exists lv emoji,
    importance_level env item target
    = Ok (lv, emoji +:+ " "
              +:+ "法改正/更新の可能性。対象業務（契約書/規程/労務）に影響あるか確認。")
    /\ (lv = "S" \/ lv = "A").
Proof.
  intros Hk Hkw. unfold importance_level, final_score, score_grant_limit, score_grant_terms,
                   score_law, score_security, score_default.
  rewrite Hk, Hkw. cbn [String.eqb Ascii.eqb Bool.eqb].
  split_tests; eexists _, _; (split; [reflexivity|]); tauto.
Qed.

Lemma law_keyword_boost_witness :
  exists lv emoji,
    importance_level (sample_env 0 posts_ok insertion_order)
      (mkItem "1" "労働基準法の一部を改正する法律" "https://laws.e-gov.go.jp/"
              "緊急 施行日:20260401" "20260105" "e-Gov法令API")
      laws
    = Ok (lv, emoji +:+ " "
              +:+ "法改正/更新の可能性。対象業務（契約書/規程/労務）に影響あるか確認。")
    /\ (lv = "S" \/ lv = "A").
Proof. apply law_keyword_boost; reflexivity. Defined.

(** ** [fetch_jgrants] *)

Lemma collect_returns request keywords : forall d,
  (forall kw, In kw keywords -> exists rows, request kw = Ok rows)
  <-> exists d', JGrants.collect request keywords d = Ok d'.
Proof.
  induction keywords as [|kw keywords IH]; intros d; simpl.
  - split; [by eexists | intros _ kw []].
  - destruct (request kw) as [rows|msg] eqn:Hkw.
    + rewrite <- IH. split.
      * intros H k Hk. apply H. by right.
      * intros H k [<- | Hk]; [by eexists | by apply H].
    + split.
      * intros H. destruct (H kw (or_introl eq_refl)) as [rows Hrows]. congruence.
      * intros [d' Hd']. discriminate.
Qed.

(** X18. [fetch_jgrants] returns exactly when the request of every
    keyword has returned: one failed request makes the whole fetch raise,
    and the rows of the other keywords are lost with it. *)
Theorem jgrants_all_or_nothing request keywords max_items :
  (forall kw, In kw keywords -> exists rows, request kw = Ok rows)
  <-> exists items, JGrants.fetch_jgrants request keywords max_items = Ok items.
Proof.
  rewrite (collect_returns request keywords []). unfold JGrants.fetch_jgrants.
  destruct (JGrants.collect request keywords []) as [d|msg].
  - split; intros _; by eexists.
  - split; intros [x Hx]; discriminate.
Qed.

(** The dictionary of rows: keys once each, every row under its own key,
    no empty key. *)
Lemma dict_set_keys sid row d :
  map fst (JGrants.dict_set sid row d)
  = if mem sid (map fst d) then map fst d else map fst d ++ [sid].
Proof.
  induction d as [|[k v] d IH]; [reflexivity|]. cbn [JGrants.dict_set map fst mem existsb].
  rewrite (String.eqb_sym sid k). destruct (String.eqb k sid); [reflexivity|].
  cbn [map fst orb]. fold (mem sid (map fst d)). rewrite IH.
  by destruct (mem sid (map fst d)).
Qed.

Lemma dict_set_rows (P : string * JGrants.Row -> Prop) sid row d :
  Forall P d -> P (sid, row) -> Forall P (JGrants.dict_set sid row d).
Proof.
  intros Hd HP. induction Hd as [|[k v] d Hkv Hd IH]; cbn [JGrants.dict_set].
  - by apply List.Forall_cons.
  - destruct (String.eqb k sid) eqn:Hk.
    + apply String.eqb_eq in Hk as ->. by apply List.Forall_cons.
    + by apply List.Forall_cons.
Qed.

Lemma add_row_ok d row :
  NoDup (map fst d) /\ Forall (fun kv => kv.1 = row_key kv.2 /\ kv.1 <> EmptyString) d ->
  NoDup (map fst (JGrants.add_row d row))
  /\ Forall (fun kv => kv.1 = row_key kv.2 /\ kv.1 <> EmptyString) (JGrants.add_row d row).
Proof.
  intros [Hnd Hrows]. unfold JGrants.add_row. fold (row_key row).
  destruct (Py.truthy (row_key row)) eqn:Hkey; [|by split].
  split.
  - rewrite dict_set_keys. destruct (mem (row_key row) (map fst d)) eqn:Hmem; [exact Hnd|].
    apply NoDup_app. split; [exact Hnd|]. split; [|apply NoDup_singleton].
    intros x Hx Hx'. apply list_elem_of_In in Hx. apply list_elem_of_In in Hx'.
    destruct Hx' as [<- | []]. by rewrite (proj2 (mem_In _ _) Hx) in Hmem.
  - apply dict_set_rows; [exact Hrows|]. split; [reflexivity | by apply truthy_nonempty].
Qed.

Lemma collect_ok request keywords : forall d d',
  NoDup (map fst d) /\ Forall (fun kv => kv.1 = row_key kv.2 /\ kv.1 <> EmptyString) d ->
  JGrants.collect request keywords d = Ok d' ->
  NoDup (map fst d') /\ Forall (fun kv => kv.1 = row_key kv.2 /\ kv.1 <> EmptyString) d'.
Proof.
  induction keywords as [|kw keywords IH]; intros d d' Hd; simpl.
  - by intros [= <-].
  - destruct (request kw) as [rows|msg]; [|discriminate]. apply IH.
    clear IH. revert d Hd. induction rows as [|row rows IHrows]; intros d Hd; [exact Hd|].
    simpl. by apply IHrows, add_row_ok.
Qed.

Lemma insert_row_Permutation x l : JGrants.insert_row x l ≡ₚ x :: l.
Proof.
  induction l as [|y l IH]; simpl; [reflexivity|].
  destruct (PyExt.ltb _ _); [reflexivity|]. rewrite IH. apply Permutation_swap.
Qed.

Lemma sort_fold_Permutation rows : forall acc,
  fold_left (fun sorted x => JGrants.insert_row x sorted) rows acc ≡ₚ acc ++ rows.
Proof.
  induction rows as [|x rows IH]; intros acc; simpl; [by rewrite app_nil_r|].
  rewrite IH, insert_row_Permutation. apply Permutation_middle.
Qed.

Lemma sort_rows_Permutation rows : JGrants.sort_rows rows ≡ₚ rows.
Proof. unfold JGrants.sort_rows. by rewrite sort_fold_Permutation. Qed.

Lemma firstn_NoDup {A} k (l : list A) : NoDup l -> NoDup (firstn k l).
Proof.
  intros H. rewrite <- (firstn_skipn k l) in H. by apply NoDup_app in H as [H _].
Qed.

Lemma firstn_In {A} k (l : list A) x : In x (firstn k l) -> In x l.
Proof.
  intros H. rewrite <- (firstn_skipn k l). apply in_or_app. by left.
Qed.

Lemma safe_text_of_normalised v :
  one_line (JGrants.safe_text_of v) /\ stripped (JGrants.safe_text_of v).
Proof.
  destruct v as [|s|n]; [apply empty_normalised | |]; apply safe_text_str_normalised.
Qed.

(** X19. The items [fetch_jgrants] returns have pairwise distinct ids,
    however many keywords answered with the same row; every id is the
    normalised id of its row and is not empty, the link is the portal
    address followed by the id, the summary holds at most 280 characters,
    and a [max_items] that is not negative bounds their number. *)
Theorem jgrants_items request keywords max_items items :
  JGrants.fetch_jgrants request keywords max_items = Ok items ->
  NoDup (map it_id items)
  /\ Forall (fun it =>
               it_id it <> EmptyString
               /\ one_line (it_id it) /\ stripped (it_id it)
               /\ it_url it = "https://www.jgrants-portal.go.jp/subsidy/" +:+ it_id it
               /\ PyExt.len (it_summary it) <= 280
               /\ it_source it = "JグランツAPI") items
  /\ ((0 <= max_items)%Z -> length items <= Z.to_nat max_items).
Proof.
  unfold JGrants.fetch_jgrants.
  destruct (JGrants.collect request keywords []) as [d|msg] eqn:Hd; [|discriminate].
  intros [= <-].
  destruct (collect_ok request keywords [] d) as [Hnd Hrows];
    [split; constructor | exact Hd |].
  set (rows := JGrants.sort_rows (map snd d)).
  assert (Hkeys : map row_key (map snd d) = map fst d).
  { clear Hnd Hd. induction Hrows as [|[k v] d' [Hk _] _ IH]; [reflexivity|].
    simpl in *. by rewrite IH, Hk. }
  assert (Hperm : map row_key rows ≡ₚ map fst d).
  { rewrite <- Hkeys. apply Permutation_map, sort_rows_Permutation. }
  split; [|split].
  - rewrite map_map.
    change (NoDup (map row_key (Py.slice_to max_items rows))).
    rewrite <- slice_to_map, slice_to_firstn. apply firstn_NoDup. by rewrite Hperm.
  - assert (Hne : Forall (fun row => row_key row <> EmptyString) rows).
    { apply List.Forall_forall. intros row Hrow.
      apply (in_map row_key), list_elem_of_In in Hrow. rewrite Hperm in Hrow.
      apply list_elem_of_In, in_map_iff in Hrow as ([k v] & Hk & Hkv).
      rewrite List.Forall_forall in Hrows. destruct (Hrows _ Hkv) as [_ H].
      simpl in *. by rewrite <- Hk. }
    apply List.Forall_forall. intros it Hit.
    apply in_map_iff in Hit as (row & <- & Hin).
    assert (Hrow : row_key row <> EmptyString).
    { rewrite List.Forall_forall in Hne. apply Hne.
      rewrite slice_to_firstn in Hin. revert Hin. apply firstn_In. }
    unfold JGrants.grant_item.
    cbn [it_id it_url it_summary it_source]. fold (row_key row).
    split; [exact Hrow|].
    split; [apply safe_text_of_normalised|]. split; [apply safe_text_of_normalised|].
    split; [reflexivity|]. split; [apply take_chars_len | reflexivity].
  - intros Hmax. rewrite length_map.
    destruct (slice_to_length max_items rows) as [Hlen _]. rewrite (Hlen Hmax). lia.
Qed.

Lemma jgrants_items_witness :
  exists items,
    JGrants.fetch_jgrants grants_api ["IT"; "DX"] 10 = Ok items
    /\ length items = 3
    /\ NoDup (map it_id items).
Proof.
  eexists. split; [vm_compute; reflexivity|]. split; [reflexivity|].
  refine (proj1 (jgrants_items grants_api ["IT"; "DX"] 10 _ _)).
  vm_compute. reflexivity.
Defined.

(** The order of [str] *)

Lemma ltb_asym a : forall b, PyExt.ltb a b = true -> PyExt.ltb b a = false.
Proof.
  induction a as [|x a IH]; intros [|y b]; simpl; try congruence.
  destruct (Nat.ltb_spec (nat_of_ascii x) (nat_of_ascii y)) as [Hxy|Hxy].
  - intros _. destruct (Nat.ltb_spec (nat_of_ascii y) (nat_of_ascii x)); [lia | reflexivity].
  - destruct (Nat.ltb_spec (nat_of_ascii y) (nat_of_ascii x)); [discriminate|].
    destruct (Nat.ltb_spec (nat_of_ascii x) (nat_of_ascii y)); [lia|]. apply IH.
Qed.

Lemma ltb_trans a : forall b c,
  PyExt.ltb a b = true -> PyExt.ltb b c = true -> PyExt.ltb a c = true.
Proof.
  induction a as [|x a IH]; intros [|y b] [|z c]; simpl; try congruence.
  destruct (Nat.ltb_spec (nat_of_ascii x) (nat_of_ascii y)) as [Hxy|Hxy];
    destruct (Nat.ltb_spec (nat_of_ascii y) (nat_of_ascii z)) as [Hyz|Hyz];
    destruct (Nat.ltb_spec (nat_of_ascii x) (nat_of_ascii z)) as [Hxz|Hxz];
    try reflexivity; try (exfalso; lia);
    destruct (Nat.ltb_spec (nat_of_ascii y) (nat_of_ascii x));
    destruct (Nat.ltb_spec (nat_of_ascii z) (nat_of_ascii y));
    destruct (Nat.ltb_spec (nat_of_ascii z) (nat_of_ascii x));
    try discriminate; try (exfalso; lia); try (intros; exfalso; lia).
  apply IH.
Qed.

Lemma insert_row_ascending x l : ascending l -> ascending (JGrants.insert_row x l).
Proof.
  induction l as [|y l IH]; simpl; [by split|]. intros [Hy Hl].
  destruct (PyExt.ltb (JGrants.end_dt x) (JGrants.end_dt y)) eqn:Hxy.
  - split; [|by split]. apply List.Forall_cons; [by apply ltb_asym|].
    eapply Forall_impl; [exact Hy|]. intros z Hz. simpl in Hz.
    destruct (PyExt.ltb (JGrants.end_dt z) (JGrants.end_dt x)) eqn:Hzx; [|reflexivity].
    by rewrite (ltb_trans _ _ _ Hzx Hxy) in Hz.
  - simpl. split; [|by apply IH]. rewrite insert_row_Permutation. by apply List.Forall_cons.
Qed.

Lemma sort_rows_ascending rows : ascending (JGrants.sort_rows rows).
Proof.
  unfold JGrants.sort_rows. generalize (I : ascending []). generalize (@nil JGrants.Row).
  induction rows as [|x rows IH]; intros acc Hacc; simpl; [exact Hacc|].
  by apply IH, insert_row_ascending.
Qed.

(** X20. The items of [fetch_jgrants] are those of the first
    [max_items] of the collected rows as sorted by end of acceptance,
    ascending: no row is followed by one that ends earlier, and a row
    without an end of acceptance is followed by no row that has one. *)
Theorem jgrants_sorted request keywords max_items items :
  JGrants.fetch_jgrants request keywords max_items = Ok items ->
  exists d rows k,
    JGrants.collect request keywords [] = Ok d
    /\ rows ≡ₚ map snd d
    /\ ascending rows
    /\ items = map JGrants.grant_item (firstn k rows)
    /\ forall i j x y,
         i < j -> rows !! i = Some x -> rows !! j = Some y ->
         JGrants.end_dt y = EmptyString -> JGrants.end_dt x = EmptyString.
Proof.
  unfold JGrants.fetch_jgrants.
  destruct (JGrants.collect request keywords []) as [d|msg] eqn:Hd; [|discriminate].
  intros [= <-].
  exists d, (JGrants.sort_rows (map snd d)),
    (length (Py.slice_to max_items (JGrants.sort_rows (map snd d)))).
  split; [reflexivity|]. split; [apply sort_rows_Permutation|].
  split; [apply sort_rows_ascending|]. split; [by rewrite <- slice_to_firstn|].
  generalize (sort_rows_ascending (map snd d)). generalize (JGrants.sort_rows (map snd d)).
  intros rows. induction rows as [|r rows IH]; intros Hasc i j x y Hij Hi Hj Hy.
  - by rewrite lookup_nil in Hi.
  - destruct Hasc as [Hr Hasc]. destruct j as [|j]; [lia|]. simpl in Hj.
    destruct i as [|i].
    + injection Hi as ->. rewrite Forall_forall in Hr.
      specialize (Hr y (list_elem_of_lookup_2 _ _ _ Hj)). simpl in Hr. rewrite Hy in Hr.
      by destruct (JGrants.end_dt x).
    + simpl in Hi. apply (IH Hasc i j x y); [lia | done..].
Qed.

Lemma jgrants_sorted_witness :
  exists items,
    JGrants.fetch_jgrants grants_api ["IT"; "DX"] 2 = Ok items
    /\ map it_id items = ["S-2"; "S-3"].
Proof.
  eexists. split; [vm_compute; reflexivity|].
  match goal with
  | |- map it_id ?items = _ =>
      destruct (jgrants_sorted grants_api ["IT"; "DX"] 2 items) as (d & rows & k & _);
      [vm_compute; reflexivity|]
  end.
  reflexivity.
Defined.

(** ** Cycles on a feed that does not change *)




(** ** [notify_hub/cli.py] *)

(** X22. The test script: with neither variable set it makes no request
    and prints only the warning, which it prints in no other case; a Slack
    request that fails ends it before Discord is tried. *)
Theorem cli_main_outcome slack discord answer :
  (Cli.set slack = false -> Cli.set discord = false ->
   Cli.main slack discord answer = (Ok tt, [Cli.Line "⚠️ .envにWebhookが入ってない"]))
  /\ (forall msg,
        Cli.set slack = true ->
        answer 0 (default EmptyString slack) = Raise msg ->
        Cli.main slack discord answer
        = (Raise msg,
           [Cli.Request (default EmptyString slack) "text"
              ("*" +:+ Cli.title +:+ "*" +:+ NL +:+ Cli.body) false]))
  /\ (In (Cli.Line "⚠️ .envにWebhookが入ってない") (Cli.main slack discord answer).2
      <-> Cli.set slack = false /\ Cli.set discord = false).
Proof.
  unfold Cli.main. split; [|split].
  - by intros -> ->.
  - intros msg -> Hmsg. by rewrite Hmsg.
  - destruct (Cli.set slack), (Cli.set discord);
      repeat match goal with
             | |- context [answer ?n ?u] => destruct (answer n u) as [[]|?]
             end;
      simpl; split; intros H; intuition (try discriminate).
Qed.

(** X23. A webhook variable that holds only whitespace counts as set for
    the test script, which posts to it, and as unset for [notify_all], which
    strips it first and makes no request. *)
Theorem blank_webhook_url s env cfg answer headline body url w :
  s <> EmptyString ->
  Py.strip s = EmptyString ->
  SLACK_WEBHOOK_URL env = Some s ->
  DISCORD_WEBHOOK_URL env = None ->
  (exists text ok, (Cli.main (Some s) None answer).2 = [Cli.Request s "text" text ok]
                   \/ exists line, (Cli.main (Some s) None answer).2
                                   = [Cli.Request s "text" text ok; Cli.Line line])
  /\ (notify_all env cfg headline body url w).1 = Ok tt
  /\ requests (notify_all env cfg headline body url w).2 = requests w.
Proof.
  intros Hs Hstrip Hslack Hdiscord. split.
  - unfold Cli.main, Cli.set. cbn [default from_option id].
    destruct s as [|c s]; [done|]. cbn [Py.truthy negb andb].
    destruct (answer 0 (String c s)) as [[]|msg]; eexists _, _; [right; by eexists | by left].
  - rewrite notify_all_no_destination.
    + split; [reflexivity | by apply requests_app].
    + split; right; [unfold slack_url_of; by rewrite Hslack | by rewrite Hdiscord].
Qed.

Lemma blank_webhook_url_witness :
  requests
    (notify_all (mkEnv (Some " ") None (fun _ => Ok []) (fun _ => Ok [])
                   (fun _ _ _ _ _ => Ok []) slack_down (fun _ => EmptyString)
                   insertion_order Py.lower_ascii flat_state_dir)
       (mkConfig [] true true) "headline" "body" "https://example.org/" empty_world).2
  = [].
Proof.
  refine (proj2 (proj2 (blank_webhook_url " " _ (mkConfig [] true true) posts_ok "headline" "body"
                          "https://example.org/" empty_world _ _ _ _)));
    [discriminate | reflexivity | reflexivity | reflexivity].
Defined.

(** ** The watch loop during an outage *)

Lemma outage_targets env cfg (l : list Target) : forall w,
  posts_succeed env ->
  Forall (fetch_fails env) l ->
  (for_each (process_target env cfg) l w).1 = Ok tt
  /\ length (notifications (trace (for_each (process_target env cfg) l w).2))
     = length (notifications (trace w)) + length l.
Proof.
  intros w Hposts Hl. revert w.
  induction Hl as [|t l [msg Ht] _ IH]; intros w; [split; [reflexivity | simpl; lia]|].
  cbn [for_each]. unfold mbind, M_bind.
  rewrite (process_target_fetch_raises env cfg t msg w Ht).
  destruct (on_error_run env cfg t msg w) as (_ & Hok & d & Htrace & Hd).
  specialize (Hok Hposts).
  destruct (on_error env cfg t msg w) as [[[]|msg'] w1]; [|discriminate].
  cbn [fst snd] in *. destruct (IH w1) as [Hrest Hcount]. split; [exact Hrest|].
  rewrite Hcount, Htrace, notifications_app. change (?e :: d) with ([e] ++ d).
  rewrite notifications_app, Hd, !length_app. simpl. lia.
Qed.

Lemma outage_cycle env cfg w :
  posts_succeed env ->
  Forall (fetch_fails env) (targets cfg) ->
  (run_once env cfg w).1 = Ok tt
  /\ length (notifications (trace (run_once env cfg w).2))
     = length (notifications (trace w)) + length (targets cfg).
Proof.
  intros Hposts Hl. rewrite run_once_run.
  destruct (outage_targets env cfg (targets cfg) (started env w) Hposts Hl) as [Hok Hcount].
  destruct (for_each _ _ _) as [[[]|msg] w1]; [|discriminate].
  split; [reflexivity|]. cbn [fst snd] in *. unfold ended.
  rewrite notifications_printed. cbn [trace]. rewrite Hcount.
  unfold started. by rewrite notifications_printed.
Qed.

(** X24. While the fetch of every target raises and the webhooks answer,
    the watch loop reports each target anew in every round: after [n]
    rounds it has sent [n] error notifications for each target, with no
    memory of those already sent. *)
Theorem outage_notifies_every_round env cfg interval n w :
  posts_succeed env ->
  Forall (fetch_fails env) (targets cfg) ->
  (0 <= interval)%Z ->
  (watch n env cfg interval w).1 = Ok tt
  /\ length (notifications (trace (watch n env cfg interval w).2))
     = length (notifications (trace w)) + n * length (targets cfg).
Proof.
  intros Hposts Hl Hint. revert w.
  induction n as [|n IH]; intros w; [split; [reflexivity | simpl; lia]|].
  cbn [watch]. unfold mbind, M_bind.
  destruct (outage_cycle env cfg w Hposts Hl) as [Hok Hcount].
  destruct (run_once env cfg w) as [[[]|msg] w1]; [|discriminate].
  unfold sleep. apply Z.ltb_ge in Hint. rewrite Hint. unfold mret, M_ret.
  cbn [fst snd] in *. destruct (IH w1) as [Hrest Hn]. split; [exact Hrest|].
  rewrite Hn, Hcount. lia.
Qed.

Lemma outage_notifies_every_round_witness :
  length (notifications
            (trace (watch 4 (sample_env 2 posts_ok insertion_order)
                      (mkConfig [laws] true true) 60 empty_world).2)) = 4.
Proof.
  destruct (outage_notifies_every_round (sample_env 2 posts_ok insertion_order)
              (mkConfig [laws] true true) 60 4 empty_world) as [_ ->].
  - by intros k url.
  - apply List.Forall_cons; [by eexists | apply List.Forall_nil].
  - by vm_compute.
  - reflexivity.
Defined.
